(** * Lost-and-found client: session manager and item cache

    A shallow embedding of the two React context providers of the
    application, [auth-context] (the session manager) and [data-context]
    (the item cache), together with the properties of their operations.

    The providers are asynchronous TypeScript closures over React state
    and over the Supabase client.  Here
    - React state is an explicit record threaded through a small monad;
    - the Supabase client is an oracle ([Remote]) giving the reply to each
      request, so that a statement quantified over the oracle covers every
      behaviour of the backend;
    - toasts, console output and the requests sent are recorded, in order,
      in a trace of [Event]s;
    - JavaScript completions (normal, [return], [throw]) are explicit, with
      [try]/[catch]/[finally] as combinators. *)

From Stdlib Require Import String Ascii List Bool Permutation.
Import ListNotations.
Local Open Scope string_scope.
Local Open Scope list_scope.

Set Default Proof Using "Type".

(** * Values of [@/types] *)

(** Modelled from the spec: the declarations of [@/types] ([UserRole],
    [ItemType], [ItemStatus], [User], [Item]) are imported by the sources
    but are not among them.  The spec gives [role] as the enum
    [user | admin], [type] as [normal | emergency] and [status] as
    [lost | found]; the field names are those the sources read and write.
    [place] is typed as an enum in the data contract but receives the
    free-text location of the form, so it is a string here. *)
Inductive UserRole := RoleUser | RoleAdmin.
Inductive ItemType := Normal | Emergency.
Inductive ItemStatus := Lost | Found.

(** The string each enum value is at run time. *)
Definition UserRole_name (r : UserRole) : string :=
  match r with RoleUser => "user" | RoleAdmin => "admin" end.
Definition ItemType_name (t : ItemType) : string :=
  match t with Normal => "normal" | Emergency => "emergency" end.
Definition ItemStatus_name (s : ItemStatus) : string :=
  match s with Lost => "lost" | Found => "found" end.

Definition UserRole_eqb (a b : UserRole) : bool :=
  match a, b with
  | RoleUser, RoleUser | RoleAdmin, RoleAdmin => true
  | _, _ => false
  end.
Definition ItemType_eqb (a b : ItemType) : bool :=
  match a, b with
  | Normal, Normal | Emergency, Emergency => true
  | _, _ => false
  end.

Module User.
Record t := mk
  { id : string; name : string; email : string;
    role : UserRole; createdAt : string }.
End User.

Module Item.
Record t := mk
  { id : string;
    userId : string;
    userName : string;
    userPhone : string;
    productName : string;
    photo : option string;
    place : string;
    date : string;
    type : ItemType;
    status : ItemStatus;
    createdAt : string }.

(** [{ ...item, status }] *)
Definition with_status (s : ItemStatus) (i : t) : t :=
  mk (id i) (userId i) (userName i) (userPhone i) (productName i)
     (photo i) (place i) (date i) (type i) s (createdAt i).
End Item.

(** [Omit<Item, "id" | "userId" | "createdAt">], the argument of [addItem]. *)
Module NewItem.
Record t := mk
  { userName : string;
    userPhone : string;
    productName : string;
    photo : option string;
    place : string;
    date : string;
    type : ItemType;
    status : ItemStatus }.
End NewItem.

(** * The remote store and the identity provider *)

(** A row of the [items] table, as [mapSupabaseItem] reads it.  The [type]
    and [status] columns are taken at the types the casts [as ItemType] and
    [as ItemStatus] assert. *)
Module Row.
Record t := mk
  { id : string;
    user_id : string;
    name : option string;
    phone_number : option string;
    product_name : string;
    photo_url : option string;
    place : string;
    date : string;
    type : ItemType;
    status : ItemStatus;
    created_at : string }.
End Row.

(** The object [addItem] inserts into [items]. *)
Module ItemData.
Record t := mk
  { user_id : string;
    name : string;
    phone_number : string;
    product_name : string;
    photo_url : option string;
    place : string;
    date : string;
    type : ItemType;
    status : ItemStatus }.
End ItemData.

(** Filters of the query builder: [.eq], [.gte], [.lte] on a column. *)
Inductive FilterOp := OpEq | OpGte | OpLte.
Record Filter := mkFilter
  { op : FilterOp; column : string; value : string }.

(** The builder methods [.eq(column, value)], [.gte(...)], [.lte(...)]. *)
Module Query.
Definition eq (c v : string) : Filter := mkFilter OpEq c v.
Definition gte (c v : string) : Filter := mkFilter OpGte c v.
Definition lte (c v : string) : Filter := mkFilter OpLte c v.
End Query.

Record AuthUser := mkAuthUser { auth_id : string }.
Record Session := mkSession { session_user : AuthUser }.

(** [data] of [supabase.auth.signUp]. *)
Record SignUpData := mkSignUpData
  { data_user : option AuthUser; data_session : option Session }.

Record Err := mkErr { message : string }.

(** What an awaited Supabase call gives: the pair [{ data, error }], or a
    rejected promise. *)
Inductive Reply (D : Type) :=
| Resolved (data : D) (error : option Err)
| Rejected (reason : Err).
Arguments Resolved {D} data error.
Arguments Rejected {D} reason.

(** The requests the two providers send. *)
Inductive Request :=
| AuthSignOut
    (* supabase.auth.signOut({ scope: 'global' }) *)
| AuthSignUp (email password name : string) (role : UserRole)
    (* supabase.auth.signUp({ email, password, options: { data: { name, role } } }) *)
| ProfilesInsert (id : string) (role : UserRole) (name : string)
    (* supabase.from('profiles').insert([{ id, role, name }]) *)
| ItemsSelect
    (* supabase.from('items').select('*').order('created_at', { ascending: false }) *)
| ItemsInsert (itemData : ItemData.t)
    (* supabase.from('items').insert(itemData).select().single() *)
| ItemsUpdate (status : ItemStatus) (filters : list Filter)
    (* supabase.from('items').update({ status }) followed by filters *)
| ItemsDelete (filters : list Filter).
    (* supabase.from('items').delete() followed by filters *)

(** The backend: the reply to each request. *)
Record Remote := mkRemote
  { auth_signOut : Reply unit;
    auth_signUp : string -> string -> string -> UserRole -> Reply SignUpData;
    profiles_insert : string -> UserRole -> string -> Reply unit;
    items_select : Reply (option (list Row.t));
    items_insert : ItemData.t -> Reply (option Row.t);
    items_update : ItemStatus -> list Filter -> Reply unit;
    items_delete : list Filter -> Reply unit }.

(** * Effects *)

Inductive ToastLevel := ToastSuccess | ToastError | ToastInfo.

Inductive Event :=
| Toast (level : ToastLevel) (msg : string)
| ConsoleError (label : string)
| Call (req : Request) (failed : bool).

Definition Trace := list Event.

(** How a block of statements completes: normally, by [return], or by
    [throw]. *)
Inductive Completion (A : Type) :=
| Done (a : A)
| Returned
| Thrown (e : Err).
Arguments Done {A} a.
Arguments Returned {A}.
Arguments Thrown {A} e.

Definition M (S A : Type) : Type := S -> Completion A * S * Trace.

Definition ret {S A} (a : A) : M S A := fun s => (Done a, s, []).

Definition bind {S A B} (m : M S A) (k : A -> M S B) : M S B :=
  fun s =>
    match m s with
    | (Done a, s1, t1) =>
        let '(r, s2, t2) := k a s1 in (r, s2, t1 ++ t2)
    | (Returned, s1, t1) => (Returned, s1, t1)
    | (Thrown e, s1, t1) => (Thrown e, s1, t1)
    end.

Declare Scope js_scope.
Delimit Scope js_scope with js.
Notation "x <- m ;; k" := (bind m (fun x => k))
  (at level 61, m at next level, right associativity) : js_scope.
Notation "' p <- m ;; k" := (bind m (fun x => match x with p => k end))
  (at level 61, p pattern, m at next level, right associativity) : js_scope.
Notation "m ;; k" := (bind m (fun _ => k))
  (at level 61, right associativity) : js_scope.
Local Open Scope js_scope.

(** [throw e] and [return]. *)
Definition throw {S A} (e : Err) : M S A := fun s => (Thrown e, s, []).
Definition return_ {S A} : M S A := fun s => (Returned, s, []).

Definition emit {S} (ev : Event) : M S unit := fun s => (Done tt, s, [ev]).
Definition modify {S} (f : S -> S) : M S unit := fun s => (Done tt, f s, []).

(** [try { m } catch (e) { h e }] *)
Definition try_catch {S A} (m : M S A) (h : Err -> M S A) : M S A :=
  fun s =>
    match m s with
    | (Thrown e, s1, t1) =>
        let '(r, s2, t2) := h e s1 in (r, s2, t1 ++ t2)
    | other => other
    end.

(** [try { m } finally { f }]: [f] runs however [m] completes, and the
    completion of [m] stands unless [f] itself returns or throws. *)
Definition try_finally {S A} (m : M S A) (f : M S unit) : M S A :=
  fun s =>
    let '(r, s1, t1) := m s in
    match f s1 with
    | (Done _, s2, t2) => (r, s2, t1 ++ t2)
    | (Returned, s2, t2) => (Returned, s2, t1 ++ t2)
    | (Thrown e, s2, t2) => (Thrown e, s2, t1 ++ t2)
    end.

(** The body of an [async] function of type [Promise<void>]: [return]
    resolves the promise, [throw] rejects it. *)
Definition async_function {S} (body : M S unit) : M S unit :=
  fun s =>
    match body s with
    | (Returned, s1, t1) => (Done tt, s1, t1)
    | other => other
    end.

(** [if (error) throw error] *)
Definition throw_if {S} (error : option Err) : M S unit :=
  match error with
  | Some e => throw e
  | None => ret tt
  end.

Definition is_failure {D} (r : Reply D) : bool :=
  match r with
  | Resolved _ None => false
  | Resolved _ (Some _) => true
  | Rejected _ => true
  end.

(** [await] of a request whose reply is [r]: the request and whether it
    failed are recorded; a rejection is thrown at the call site. *)
Definition await {S D} (req : Request) (r : Reply D) : M S (D * option Err) :=
  fun s =>
    match r with
    | Resolved d e => (Done (d, e), s, [Call req (is_failure r)])
    | Rejected e => (Thrown e, s, [Call req true])
    end.

Definition toast_success {S} (msg : string) : M S unit := emit (Toast ToastSuccess msg).
Definition toast_error {S} (msg : string) : M S unit := emit (Toast ToastError msg).
Definition console_error {S} (label : string) : M S unit := emit (ConsoleError label).

(** Truthiness of a string, and [s || dflt]. *)
Definition truthy (s : string) : bool := negb (s =? "").
Definition or_else (s dflt : string) : string := if truthy s then s else dflt.
Definition or_else_opt (s : option string) (dflt : string) : string :=
  match s with
  | Some v => or_else v dflt
  | None => dflt
  end.

(** [s.includes(sub)] *)
Fixpoint includes (sub s : string) : bool :=
  prefix sub s ||
  match s with
  | EmptyString => false
  | String _ rest => includes sub rest
  end.

(** [s.split(c)[0]] *)
Fixpoint split_head (c : ascii) (s : string) : string :=
  match s with
  | EmptyString => EmptyString
  | String a rest => if Ascii.eqb a c then EmptyString else String a (split_head c rest)
  end.

(** * auth-context: the session manager *)

Module AuthContext.

(** Admin code for local admin registration *)
Definition ADMIN_CODE : string := "79041167197200060295".

(** [localStorage] and [sessionStorage]: key/value entries. *)
Definition Storage := list (string * string).

Definition removeItem (key : string) (st : Storage) : Storage :=
  filter (fun kv => negb (fst kv =? key)) st.

Definition keys (st : Storage) : list string := map fst st.

Definition is_auth_key (key : string) : bool :=
  prefix "supabase.auth." key || includes "sb-" key.

(** [Object.keys(st).forEach((key) => { if (...) st.removeItem(key) })] *)
Definition remove_auth_keys (st : Storage) : Storage :=
  fold_left (fun acc key => if is_auth_key key then removeItem key acc else acc)
            (keys st) st.

(** The provider's state, with the browser storage it cleans. *)
Record State := mkState
  { user : option User.t;
    session : option Session;
    loading : bool;
    localStorage : Storage;
    sessionStorage : Storage }.

Definition setLoading (b : bool) : M State unit :=
  modify (fun st =>
    mkState (user st) (session st) b (localStorage st) (sessionStorage st)).

(** Helper function to clean up auth state *)
Definition cleanupAuthState : M State unit :=
  modify (fun st =>
    mkState (user st) (session st) (loading st)
      (remove_auth_keys (removeItem "supabase.auth.token" (localStorage st)))
      (remove_auth_keys (sessionStorage st))).

Section Provider.
Variable remote : Remote.

Definition register (name email password : string)
           (adminCode : option string) : M State unit :=
  async_function (
    setLoading true ;;
    try_finally
      (try_catch
         ((* Clean up existing auth state *)
          cleanupAuthState ;;
          (* Try global sign out first; continue even if this fails *)
          try_catch (_ <- await AuthSignOut (auth_signOut remote) ;; ret tt)
                    (fun _ => ret tt) ;;
          (* let role = 'user'; check admin code if provided *)
          role <- match adminCode with
                  | Some code =>
                      if truthy code then
                        if code =? ADMIN_CODE then ret RoleAdmin
                        else (toast_error "Invalid admin code" ;;
                              setLoading false ;;
                              return_)
                      else ret RoleUser
                  | None => ret RoleUser
                  end ;;
          (* Register with Supabase *)
          '(data, error) <- await (AuthSignUp email password name role)
                                  (auth_signUp remote email password name role) ;;
          throw_if error ;;
          match data_user data with
          | Some u =>
              (* Create profile for the user *)
              '(_, profileError) <- await (ProfilesInsert (auth_id u) role name)
                                          (profiles_insert remote (auth_id u) role name) ;;
              match profileError with
              | Some _ =>
                  console_error "Error creating profile:" ;;
                  toast_error "Account created but profile setup failed"
              | None => ret tt
              end ;;
              toast_success
                ("Registration successful! " ++
                 match data_session data with
                 | Some _ => ""
                 | None => "Please check your email to confirm your account."
                 end)
          | None => ret tt
          end)
         (fun error =>
            console_error "Registration error:" ;;
            toast_error (or_else (message error) "Failed to register") ;;
            throw error))
      (setLoading false)).

End Provider.

End AuthContext.

(** * Meaning of a filtered query *)

(** The text of a column of a row; [None] is SQL [NULL]. *)
Definition column_value (r : Row.t) (c : string) : option string :=
  if c =? "id" then Some (Row.id r)
  else if c =? "user_id" then Some (Row.user_id r)
  else if c =? "name" then Row.name r
  else if c =? "phone_number" then Row.phone_number r
  else if c =? "product_name" then Some (Row.product_name r)
  else if c =? "photo_url" then Row.photo_url r
  else if c =? "place" then Some (Row.place r)
  else if c =? "date" then Some (Row.date r)
  else if c =? "type" then Some (ItemType_name (Row.type r))
  else if c =? "status" then Some (ItemStatus_name (Row.status r))
  else if c =? "created_at" then Some (Row.created_at r)
  else None.

Section FilterSemantics.
(** The store's order on the values of a column ([a <= b]). *)
Variable value_leb : string -> string -> bool.

(** [.eq] is equality, [.gte] and [.lte] are the inclusive bounds. *)
Definition holds (r : Row.t) (f : Filter) : bool :=
  match column_value r (column f) with
  | Some v =>
      match op f with
      | OpEq => v =? value f
      | OpGte => value_leb (value f) v
      | OpLte => value_leb v (value f)
      end
  | None => false
  end.

(** Chained filters are a conjunction. *)
Definition selects (filters : list Filter) (r : Row.t) : bool :=
  forallb (holds r) filters.
End FilterSemantics.

(** * data-context: the item cache *)

Module DataContext.

(** Initial sample data in case Supabase data isn't loaded *)
Definition INITIAL_ITEMS : list Item.t :=
  [ Item.mk "item1" "2" "Test User" "9876543210" "Water Bottle"
      (Some "https://images.unsplash.com/photo-1618160702438-9b02ab6515c9")
      "lost" "2023-05-15T10:30:00Z" Normal Lost "2023-05-15T10:30:00Z";
    Item.mk "item2" "2" "Test User" "9876543210" "Laptop"
      None
      "lost" "2023-05-17T14:20:00Z" Emergency Lost "2023-05-17T14:20:00Z";
    Item.mk "item3" "1" "Admin User" "9876543211" "Wallet"
      None
      "found" "2023-05-18T09:15:00Z" Normal Found "2023-05-18T09:15:00Z" ].

(** Helper function to convert Supabase item to our app's Item type *)
Definition mapSupabaseItem (item : Row.t) : Item.t :=
  Item.mk
    (Row.id item)
    (Row.user_id item)
    (or_else_opt (Row.name item) "Unknown User")
    (or_else_opt (Row.phone_number item) "")
    (Row.product_name item)
    (Row.photo_url item)
    (Row.place item)
    (Row.date item)
    (Row.type item)
    (Row.status item)
    (Row.created_at item).

Record State := mkState
  { items : list Item.t;
    loading : bool }.

Definition setItems (f : list Item.t -> list Item.t) : M State unit :=
  modify (fun st => mkState (f (items st)) (loading st)).

Definition setLoading (b : bool) : M State unit :=
  modify (fun st => mkState (items st) b).

(** The [dateRange] and [type] arguments of [deleteItemsByFilter]. *)
Record DateRange := mkDateRange { range_start : string; range_end : string }.
Inductive TypeFilter := OfType (t : ItemType) | All.

Section Provider.
Variable remote : Remote.
(** [new Date(s).toISOString()]; [None] when the date is invalid and
    the call throws a [RangeError]. *)
Variable toISOString : string -> option string.
(** [const { user } = useAuth()] *)
Variable user : option User.t.

(** Load items from Supabase *)
Definition loadItems : M State unit :=
  async_function (
    setLoading true ;;
    try_finally
      (try_catch
         ('(data, error) <- await ItemsSelect (items_select remote) ;;
          throw_if error ;;
          match data with
          | Some rows => setItems (fun _ => map mapSupabaseItem rows)
          | None => ret tt
          end)
         (fun error =>
            console_error "Error loading items:" ;;
            toast_error "Failed to load items" ;;
            (* Fall back to sample data if Supabase fails *)
            setItems (fun _ => INITIAL_ITEMS)))
      (setLoading false)).

(** Prepare item data for Supabase *)
Definition itemData (u : User.t) (newItemData : NewItem.t) (iso : string)
  : ItemData.t :=
  ItemData.mk
    (User.id u)
    (NewItem.userName newItemData)
    (NewItem.userPhone newItemData)
    (NewItem.productName newItemData)
    (NewItem.photo newItemData)
    (NewItem.place newItemData)
    (split_head "T" iso) (* Format as YYYY-MM-DD *)
    (NewItem.type newItemData)
    (NewItem.status newItemData).

Definition addItem (newItemData : NewItem.t) : M State unit :=
  async_function (
    u <- match user with
         | None => toast_error "You must be logged in to add an item" ;; return_
         | Some u => ret u
         end ;;
    setLoading true ;;
    try_finally
      (try_catch
         (iso <- match toISOString (NewItem.date newItemData) with
                 | Some iso => ret iso
                 | None => throw (mkErr "Invalid time value")
                 end ;;
          let itemData := itemData u newItemData iso in
          '(data, error) <- await (ItemsInsert itemData)
                                  (items_insert remote itemData) ;;
          throw_if error ;;
          match data with
          | Some row =>
              (* Add to local state *)
              let newItem := mapSupabaseItem row in
              setItems (fun prevItems => newItem :: prevItems) ;;
              toast_success "Item added successfully"
          | None => ret tt
          end)
         (fun error =>
            console_error "" ;;
            toast_error "Failed to add item"))
      (setLoading false)).

Definition updateItemStatus (id : string) (status : ItemStatus) : M State unit :=
  async_function (
    setLoading true ;;
    try_finally
      (try_catch
         ('(_, error) <- await (ItemsUpdate status [Query.eq "id" id])
                               (items_update remote status [Query.eq "id" id]) ;;
          throw_if error ;;
          (* Update local state *)
          setItems (fun prevItems =>
            map (fun item =>
                   if Item.id item =? id then Item.with_status status item
                   else item)
                prevItems) ;;
          toast_success ("Item marked as " ++ ItemStatus_name status))
         (fun error =>
            console_error "" ;;
            toast_error "Failed to update item status"))
      (setLoading false)).

Definition deleteItem (id : string) : M State unit :=
  async_function (
    setLoading true ;;
    try_finally
      (try_catch
         ('(_, error) <- await (ItemsDelete [Query.eq "id" id])
                               (items_delete remote [Query.eq "id" id]) ;;
          throw_if error ;;
          (* Update local state *)
          setItems (fun prevItems =>
            filter (fun item => negb (Item.id item =? id)) prevItems) ;;
          toast_success "Item deleted successfully")
         (fun error =>
            console_error "" ;;
            toast_error "Failed to delete item"))
      (setLoading false)).

(** [!user || user.role !== 'admin'] *)
Definition not_admin : bool :=
  match user with
  | None => true
  | Some u => negb (UserRole_eqb (User.role u) RoleAdmin)
  end.

(** The filters [deleteItemsByFilter] chains on
    [supabase.from('items').delete()]. *)
Definition delete_query (dateRange : option DateRange)
           (type : option TypeFilter) : list Filter :=
  let query := [] in
  let query :=
    match dateRange with
    | Some r => query ++ [Query.gte "date" (range_start r);
                          Query.lte "date" (range_end r)]
    | None => query
    end in
  let query :=
    match type with
    | Some (OfType t) => query ++ [Query.eq "type" (ItemType_name t)]
    | Some All | None => query
    end in
  query.

Definition deleteItemsByFilter (dateRange : option DateRange)
           (type : option TypeFilter) : M State unit :=
  async_function (
    (if not_admin then
       toast_error "Only admins can perform batch deletions" ;; return_
     else ret tt) ;;
    setLoading true ;;
    try_finally
      (try_catch
         (let query := delete_query dateRange type in
          '(_, error) <- await (ItemsDelete query) (items_delete remote query) ;;
          throw_if error ;;
          (* Refresh items after batch deletion *)
          loadItems ;;
          toast_success "Items deleted successfully")
         (fun error =>
            console_error "" ;;
            toast_error "Failed to delete items"))
      (setLoading false)).

(** The mutation operations the provider exposes, as data. *)
Inductive Mutation :=
| AddItem (newItemData : NewItem.t)
| UpdateItemStatus (id : string) (status : ItemStatus)
| DeleteItem (id : string)
| DeleteItemsByFilter (dateRange : option DateRange) (type : option TypeFilter).

Definition perform (m : Mutation) : M State unit :=
  match m with
  | AddItem newItemData => addItem newItemData
  | UpdateItemStatus id status => updateItemStatus id status
  | DeleteItem id => deleteItem id
  | DeleteItemsByFilter dateRange type => deleteItemsByFilter dateRange type
  end.

Definition getUserItems (st : State) : list Item.t :=
  match user with
  | None => []
  | Some u => filter (fun item => Item.userId item =? User.id u) (items st)
  end.

Definition getEmergencyItems (st : State) : list Item.t :=
  filter (fun item => ItemType_eqb (Item.type item) Emergency) (items st).

Definition getNormalItems (st : State) : list Item.t :=
  filter (fun item => ItemType_eqb (Item.type item) Normal) (items st).

Definition getItemById (st : State) (id : string) : option Item.t :=
  find (fun item => Item.id item =? id) (items st).

End Provider.

End DataContext.

(** * Observations on a run *)

Definition completion {S A} (r : Completion A * S * Trace) : Completion A := fst (fst r).
Definition final {S A} (r : Completion A * S * Trace) : S := snd (fst r).
Definition trace {S A} (r : Completion A * S * Trace) : Trace := snd r.

Definition is_signUp (ev : Event) : bool :=
  match ev with
  | Call (AuthSignUp _ _ _ _) _ => true
  | _ => false
  end.

(** Requests that carry the [admin] role to the identity provider or to
    the [profiles] table. *)
Definition grants_admin (ev : Event) : bool :=
  match ev with
  | Call (AuthSignUp _ _ _ RoleAdmin) _ => true
  | Call (ProfilesInsert _ RoleAdmin _) _ => true
  | _ => false
  end.

Definition is_error_toast (ev : Event) : bool :=
  match ev with
  | Toast ToastError _ => true
  | _ => false
  end.

Definition is_remote_call (ev : Event) : bool :=
  match ev with
  | Call _ _ => true
  | _ => false
  end.

Definition is_items_delete (ev : Event) : bool :=
  match ev with
  | Call (ItemsDelete _) _ => true
  | _ => false
  end.

(** The requests that change the [items] table. *)
Definition is_mutation_request (req : Request) : bool :=
  match req with
  | ItemsInsert _ | ItemsUpdate _ _ | ItemsDelete _ => true
  | _ => false
  end.

Definition is_failed_mutation (ev : Event) : bool :=
  match ev with
  | Call req failed => is_mutation_request req && failed
  | _ => false
  end.


(** [new] is [old] with, at most, another [status]. *)
Definition same_except_status (old new : Item.t) : Prop :=
  Item.id new = Item.id old /\
  Item.userId new = Item.userId old /\
  Item.userName new = Item.userName old /\
  Item.userPhone new = Item.userPhone old /\
  Item.productName new = Item.productName old /\
  Item.photo new = Item.photo old /\
  Item.place new = Item.place old /\
  Item.date new = Item.date old /\
  Item.type new = Item.type old /\
  Item.createdAt new = Item.createdAt old.

(** The canonical row of an inserted record: the store assigns [id] and
    [created_at] and keeps every column the client sent. *)
Definition canonical_row (d : ItemData.t) (row : Row.t) : Prop :=
  Row.user_id row = ItemData.user_id d /\
  Row.name row = Some (ItemData.name d) /\
  Row.phone_number row = Some (ItemData.phone_number d) /\
  Row.product_name row = ItemData.product_name d /\
  Row.photo_url row = ItemData.photo_url d /\
  Row.place row = ItemData.place d /\
  Row.date row = ItemData.date d /\
  Row.type row = ItemData.type d /\
  Row.status row = ItemData.status d.

(** * Sample backends and inputs *)

Module Scenario.

(** A backend that accepts everything: sign-up creates account [u-1]
    with a session, inserts return the canonical row, the table holds
    one row. *)
Definition stored (id created_at : string) (d : ItemData.t) : Row.t :=
  Row.mk id (ItemData.user_id d) (Some (ItemData.name d))
    (Some (ItemData.phone_number d)) (ItemData.product_name d)
    (ItemData.photo_url d) (ItemData.place d) (ItemData.date d)
    (ItemData.type d) (ItemData.status d) created_at.

Definition umbrella : Row.t :=
  Row.mk "item7" "u-1" (Some "Ann") None "Umbrella" None "library"
    "2024-02-01" Normal Lost "2024-02-01T08:00:00Z".

Definition online : Remote :=
  mkRemote
    (Resolved tt None)
    (fun _ _ _ _ =>
       Resolved (mkSignUpData (Some (mkAuthUser "u-1"))
                              (Some (mkSession (mkAuthUser "u-1")))) None)
    (fun _ _ _ => Resolved tt None)
    (Resolved (Some [umbrella]) None)
    (fun d => Resolved (Some (stored "item8" "2024-02-02T09:00:00Z" d)) None)
    (fun _ _ => Resolved tt None)
    (fun _ => Resolved tt None).

(** A backend where every request fails. *)
Definition unreachable : Err := mkErr "Failed to fetch".

Definition offline : Remote :=
  mkRemote
    (Rejected unreachable)
    (fun _ _ _ _ => Resolved (mkSignUpData None None) (Some unreachable))
    (fun _ _ _ => Resolved tt (Some unreachable))
    (Resolved None (Some unreachable))
    (fun _ => Resolved None (Some unreachable))
    (fun _ _ => Resolved tt (Some unreachable))
    (fun _ => Rejected unreachable).

(** Dates that are already ISO timestamps. *)
Definition toISOString (s : string) : option string := Some s.

Definition signed_out : AuthContext.State :=
  AuthContext.mkState None None false
    [("theme", "dark"); ("sb-project-auth-token", "stale")] [].

Definition ann : User.t :=
  User.mk "u-1" "Ann" "ann@sec.edu" RoleUser "2024-01-01T00:00:00Z".

Definition root : User.t :=
  User.mk "u-0" "Root" "root@sec.edu" RoleAdmin "2024-01-01T00:00:00Z".

Definition cache : DataContext.State :=
  DataContext.mkState DataContext.INITIAL_ITEMS false.

Definition keys_report : NewItem.t :=
  NewItem.mk "Ann" "9876543210" "Keys" None "canteen"
    "2024-02-02T09:00:00Z" Emergency Found.

Definition february : DataContext.DateRange :=
  DataContext.mkDateRange "2024-02-01" "2024-02-29".

End Scenario.

(** * The registration page *)

Module RegisterPage.

Section Page.
Variable remote : Remote.
(** The fields of the form: [useState] values of the component. *)
Variables name email password confirmPassword adminCode : string.
Variable isAdmin : bool.

(** [handleSubmit], after [e.preventDefault()].  A string is the
    sequence of its code units, and [password.length] their number. *)
Definition handleSubmit : M AuthContext.State unit :=
  async_function (
    (if negb (password =? confirmPassword) then
       toast_error "Passwords do not match" ;; return_
     else ret tt) ;;
    (if Nat.ltb (String.length password) 6 then
       toast_error "Password must be at least 6 characters" ;; return_
     else ret tt) ;;
    try_catch
      (AuthContext.register remote name email password
         (if isAdmin then Some adminCode else None))
      (* Navigation happens in useEffect when isAuthenticated changes *)
      (fun error => console_error "Registration error:")).

End Page.

End RegisterPage.

(** An entry of the browser storage that [cleanupAuthState] keeps. *)
Definition not_auth_entry (kv : string * string) : bool :=
  negb (AuthContext.is_auth_key (fst kv)).

(** Every item of the cache names its reporter. *)
Definition named (st : DataContext.State) : Prop :=
  Forall (fun i => Item.userName i <> "") (DataContext.items st).

(** [old] is what remains of [new] after some leading items. *)
Definition is_suffix {A} (old new : list A) : Prop :=
  exists added, new = added ++ old.

(** One thing that happens to the item cache: a reload (on mount, on a
    change notification, after the admin clean-up) or an operation called
    by the user that is logged in at that time, each against the backend
    as it then is. *)
Inductive Action :=
| Reload (remote : Remote)
| Perform (remote : Remote) (toISOString : string -> option string)
          (user : option User.t) (op : DataContext.Mutation).

Definition act (st : DataContext.State) (a : Action) : DataContext.State :=
  match a with
  | Reload remote => final (DataContext.loadItems remote st)
  | Perform remote toISOString user op =>
      final (DataContext.perform remote toISOString user op st)
  end.

(** [useState<Item[]>([])], [useState(true)] *)
Definition mounted : DataContext.State := DataContext.mkState [] true.

(** A backend that creates accounts but refuses profile rows. *)
Definition no_profiles : Remote :=
  mkRemote
    (Resolved tt None)
    (fun _ _ _ _ =>
       Resolved (mkSignUpData (Some (mkAuthUser "u-2")) None) None)
    (fun _ _ _ => Resolved tt (Some (mkErr "permission denied for table profiles")))
    (Resolved None (Some (mkErr "permission denied for table items")))
    (fun _ => Resolved None (Some (mkErr "permission denied for table items")))
    (fun _ _ => Resolved tt (Some (mkErr "permission denied for table items")))
    (fun _ => Resolved tt (Some (mkErr "permission denied for table items"))).

(** A backend whose replies carry neither data nor error. *)
Definition silent : Remote :=
  mkRemote
    (Resolved tt None)
    (fun _ _ _ _ => Resolved (mkSignUpData None None) None)
    (fun _ _ _ => Resolved tt None)
    (Resolved None None)
    (fun _ => Resolved None None)
    (fun _ _ => Resolved tt None)
    (fun _ => Resolved tt None).

(** * The other requests of the application *)

(** The user of a session, as the auth-state listener reads it. *)
Module SessionUser.
Record t := mk
  { id : string;
    email : option string;
    user_metadata_name : option string;   (* user_metadata?.name *)
    created_at : string }.
End SessionUser.

(** A session delivered by [getSession] or by an auth-state change. *)
Module AuthSession.
Record t := mk { user : SessionUser.t }.
End AuthSession.

(** A row of [profiles]. *)
Module Profile.
Record t := mk
  { id : string;
    name : option string;
    role : UserRole;
    created_at : option string }.
End Profile.

(** A file chosen in the form. *)
Record File := mkFile { file_name : string }.

(** The requests that [login], [loginWithGoogle], the auth-state
    listener, the admin clean-up and the item form send, besides those of
    [Request]. *)
Inductive XRequest :=
| AuthSignInWithPassword (email password : string)
    (* supabase.auth.signInWithPassword({ email, password }) *)
| AuthSignInWithOAuth (provider redirectTo : string)
                      (queryParams : list (string * string))
    (* supabase.auth.signInWithOAuth({ provider, options: { redirectTo, queryParams } }) *)
| AuthGetSession
    (* supabase.auth.getSession() *)
| AuthOnAuthStateChange
    (* supabase.auth.onAuthStateChange(callback) *)
| ProfilesSelect (filters : list Filter)
    (* supabase.from('profiles').select('*') followed by filters, .single() *)
| ProfilesInsertDefault (id : string) (role : UserRole)
    (* supabase.from('profiles').insert([{ id, role }]) *)
| ItemsDeleteLt (column value : string)
    (* supabase.from('items').delete().lt(column, value) *)
| StorageListBuckets
    (* supabase.storage.listBuckets() *)
| StorageCreateBucket (name : string) (public : bool)
    (* supabase.storage.createBucket(name, { public }) *)
| StorageUpload (bucket path : string) (file : File).
    (* supabase.storage.from(bucket).upload(path, file) *)

Record RemoteX := mkRemoteX
  { base : Remote;
    auth_signInWithPassword : string -> string -> Reply unit;
    auth_signInWithOAuth : string -> string -> list (string * string) -> Reply unit;
    auth_getSession : Reply (option AuthSession.t);
    profiles_select : list Filter -> Reply (option Profile.t);
    profiles_insert_default : string -> UserRole -> Reply unit;
    items_delete_lt : string -> string -> Reply unit;
    storage_listBuckets : Reply (option (list string));
    storage_createBucket : string -> bool -> Reply unit;
    storage_upload : string -> string -> File -> Reply (option string);
    (* supabase.storage.from(bucket).getPublicUrl(path): no request, the
       URL is computed locally; [None] when [publicUrl] is missing *)
    storage_getPublicUrl : string -> string -> option string }.

Inductive XEvent :=
| Core (ev : Event)
| XCall (req : XRequest) (failed : bool)
| ConsoleLog (label : string)
| ConsoleWarn (label : string).

(** The effect monad again, over the wider alphabet of events. *)
Module Wide.

Definition M (S A : Type) : Type := S -> Completion A * S * list XEvent.

Definition ret {S A} (a : A) : M S A := fun s => (Done a, s, []).

Definition bind {S A B} (m : M S A) (k : A -> M S B) : M S B :=
  fun s =>
    match m s with
    | (Done a, s1, t1) =>
        let '(r, s2, t2) := k a s1 in (r, s2, t1 ++ t2)
    | (Returned, s1, t1) => (Returned, s1, t1)
    | (Thrown e, s1, t1) => (Thrown e, s1, t1)
    end.

Definition throw {S A} (e : Err) : M S A := fun s => (Thrown e, s, []).
Definition return_ {S A} : M S A := fun s => (Returned, s, []).
Definition emit {S} (ev : XEvent) : M S unit := fun s => (Done tt, s, [ev]).
Definition modify {S} (f : S -> S) : M S unit := fun s => (Done tt, f s, []).
Definition get {S} : M S S := fun s => (Done s, s, []).

Definition try_catch {S A} (m : M S A) (h : Err -> M S A) : M S A :=
  fun s =>
    match m s with
    | (Thrown e, s1, t1) =>
        let '(r, s2, t2) := h e s1 in (r, s2, t1 ++ t2)
    | other => other
    end.

Definition try_finally {S A} (m : M S A) (f : M S unit) : M S A :=
  fun s =>
    let '(r, s1, t1) := m s in
    match f s1 with
    | (Done _, s2, t2) => (r, s2, t1 ++ t2)
    | (Returned, s2, t2) => (Returned, s2, t1 ++ t2)
    | (Thrown e, s2, t2) => (Thrown e, s2, t1 ++ t2)
    end.

Definition async_function {S} (body : M S unit) : M S unit :=
  fun s =>
    match body s with
    | (Returned, s1, t1) => (Done tt, s1, t1)
    | other => other
    end.

Definition throw_if {S} (error : option Err) : M S unit :=
  match error with
  | Some e => throw e
  | None => ret tt
  end.

(** A computation on a part [T] of the state [S]. *)
Definition zoom {S T A} (proj : S -> T) (put : T -> S -> S) (m : M T A) : M S A :=
  fun s => let '(r, t1, tr) := m (proj s) in (r, put t1 s, tr).

Definition await {S D} (req : XRequest) (r : Reply D) : M S (D * option Err) :=
  fun s =>
    match r with
    | Resolved d e => (Done (d, e), s, [XCall req (is_failure r)])
    | Rejected e => (Thrown e, s, [XCall req true])
    end.

Definition toast_success {S} (msg : string) : M S unit :=
  emit (Core (Toast ToastSuccess msg)).
Definition toast_error {S} (msg : string) : M S unit :=
  emit (Core (Toast ToastError msg)).
Definition toast_info {S} (msg : string) : M S unit :=
  emit (Core (Toast ToastInfo msg)).
Definition console_error {S} (label : string) : M S unit :=
  emit (Core (ConsoleError label)).
Definition console_log {S} (label : string) : M S unit := emit (ConsoleLog label).
Definition console_warn {S} (label : string) : M S unit := emit (ConsoleWarn label).

End Wide.

(** A computation of the narrower monad, with its events as they are. *)
Definition lift {S A} (m : M S A) : Wide.M S A :=
  fun s => let '(r, s1, t1) := m s in (r, s1, map Core t1).

Declare Scope wide_scope.
Delimit Scope wide_scope with wide.
Notation "x <- m ;; k" := (Wide.bind m (fun x => k))
  (at level 61, m at next level, right associativity) : wide_scope.
Notation "' p <- m ;; k" := (Wide.bind m (fun x => match x with p => k end))
  (at level 61, p pattern, m at next level, right associativity) : wide_scope.
Notation "m ;; k" := (Wide.bind m (fun _ => k))
  (at level 61, right associativity) : wide_scope.

(** [a || b || ... || dflt] on strings that may be missing. *)
Fixpoint first_truthy (candidates : list (option string)) (dflt : string) : string :=
  match candidates with
  | [] => dflt
  | Some s :: rest => if truthy s then s else first_truthy rest dflt
  | None :: rest => first_truthy rest dflt
  end.

(** * auth-context: the other operations *)

Module AuthProvider.

Definition setUser (u : option User.t) : M AuthContext.State unit :=
  modify (fun st =>
    AuthContext.mkState u (AuthContext.session st) (AuthContext.loading st)
      (AuthContext.localStorage st) (AuthContext.sessionStorage st)).

(** The provider reads of its [session] state only whether there is one;
    the state keeps whose it is. *)
Definition to_session (s : AuthSession.t) : Session :=
  mkSession (mkAuthUser (SessionUser.id (AuthSession.user s))).

Definition setSession (s : option AuthSession.t) : M AuthContext.State unit :=
  modify (fun st =>
    AuthContext.mkState (AuthContext.user st) (option_map to_session s)
      (AuthContext.loading st)
      (AuthContext.localStorage st) (AuthContext.sessionStorage st)).

(** [isAuthenticated: !!user] *)
Definition isAuthenticated (st : AuthContext.State) : bool :=
  match AuthContext.user st with
  | Some _ => true
  | None => false
  end.

(** [email?.split('@')[0]] *)
Definition email_local_part (u : SessionUser.t) : option string :=
  option_map (split_head "@") (SessionUser.email u).

(** The [userData] built from a session and its profile row. *)
Definition userData (u : SessionUser.t) (profileData : Profile.t) : User.t :=
  User.mk
    (SessionUser.id u)
    (first_truthy [SessionUser.user_metadata_name u;
                   Profile.name profileData;
                   email_local_part u] "User")
    (or_else_opt (SessionUser.email u) "")
    (Profile.role profileData)
    (or_else_opt (Profile.created_at profileData) (SessionUser.created_at u)).

(** The [userData] of a session whose profile has just been created. *)
Definition userData_default (u : SessionUser.t) : User.t :=
  User.mk
    (SessionUser.id u)
    (first_truthy [SessionUser.user_metadata_name u; email_local_part u] "User")
    (or_else_opt (SessionUser.email u) "")
    RoleUser
    (SessionUser.created_at u).

Section Provider.
Variable remote : RemoteX.
(** [window.location.origin] *)
Variable origin : string.

Definition logout : M AuthContext.State unit :=
  async_function (
    try_finally
      (try_catch
         (AuthContext.setLoading true ;;
          (* Clean up auth state *)
          AuthContext.cleanupAuthState ;;
          (* Sign out from Supabase *)
          _ <- await AuthSignOut (auth_signOut (base remote)) ;;
          setUser None ;;
          setSession None ;;
          emit (Toast ToastInfo "Logged out successfully"))
         (fun error =>
            console_error "Logout error:" ;;
            toast_error "Failed to log out"))
      (AuthContext.setLoading false)).

Local Open Scope wide_scope.

(** [try { await supabase.auth.signOut({ scope: 'global' }) } catch (err) {}] *)
Definition try_signOut : Wide.M AuthContext.State unit :=
  Wide.try_catch
    (_ <- lift (await AuthSignOut (auth_signOut (base remote))) ;; Wide.ret tt)
    (fun _ => Wide.ret tt).

Definition login (email password : string) : Wide.M AuthContext.State unit :=
  Wide.async_function (
    lift (AuthContext.setLoading true) ;;
    Wide.try_finally
      (Wide.try_catch
         ((* Clean up existing auth state *)
          lift AuthContext.cleanupAuthState ;;
          (* Try global sign out first *)
          try_signOut ;;
          '(_, error) <- Wide.await (AuthSignInWithPassword email password)
                           (auth_signInWithPassword remote email password) ;;
          Wide.throw_if error ;;
          Wide.toast_success "Welcome back!" ;;
          Wide.return_)
         (fun error =>
            Wide.console_error "Login error:" ;;
            (if includes "Email not confirmed" (message error) then
               Wide.toast_error "Please check your email and confirm your account"
             else
               Wide.toast_error (or_else (message error) "Failed to log in")) ;;
            Wide.throw error))
      (lift (AuthContext.setLoading false))).

Definition loginWithGoogle : Wide.M AuthContext.State unit :=
  Wide.async_function (
    lift (AuthContext.setLoading true) ;;
    Wide.try_catch
      ((* Clean up existing auth state *)
       lift AuthContext.cleanupAuthState ;;
       (* Try global sign out first *)
       try_signOut ;;
       '(_, error) <- Wide.await
                        (AuthSignInWithOAuth "google" (origin ++ "/")
                           [("access_type", "offline"); ("prompt", "consent")])
                        (auth_signInWithOAuth remote "google" (origin ++ "/")
                           [("access_type", "offline"); ("prompt", "consent")]) ;;
       Wide.throw_if error
       (* Auth flow will redirect user, so no need for additional logic here *))
      (fun error =>
         Wide.console_error "Google login error:" ;;
         Wide.toast_error (or_else (message error) "Failed to log in with Google") ;;
         lift (AuthContext.setLoading false))).

(** The callback given to [onAuthStateChange], up to the timer it sets:
    the result is the session whose profile is to be fetched, if any. *)
Definition onAuthStateChange_callback (event : string)
           (currentSession : option AuthSession.t)
  : Wide.M AuthContext.State (option AuthSession.t) :=
  Wide.console_log "Auth state change:" ;;
  lift (setSession currentSession) ;;
  match currentSession with
  | Some s => Wide.ret (Some s)          (* setTimeout(async () => ..., 0) *)
  | None => lift (setUser None) ;; Wide.ret None
  end.

(** The function the timer runs: get user profile data. *)
Definition fetch_profile (currentSession : AuthSession.t)
  : Wide.M AuthContext.State unit :=
  let u := AuthSession.user currentSession in
  Wide.try_catch
    ('(profileData, _) <-
        Wide.await (ProfilesSelect [Query.eq "id" (SessionUser.id u)])
                   (profiles_select remote [Query.eq "id" (SessionUser.id u)]) ;;
     match profileData with
     | Some p =>
         Wide.console_log "Setting user data:" ;;
         lift (setUser (Some (userData u p)))
     | None => Wide.console_error "No profile data found for user:"
     end)
    (fun error => Wide.console_error "Error fetching user profile:").

(** An auth-state change followed, uninterrupted, by the timer it set. *)
Definition authStateChange (event : string)
           (currentSession : option AuthSession.t)
  : Wide.M AuthContext.State unit :=
  pending <- onAuthStateChange_callback event currentSession ;;
  match pending with
  | Some s => fetch_profile s
  | None => Wide.ret tt
  end.

Definition initAuth : Wide.M AuthContext.State unit :=
  Wide.async_function (
    lift (AuthContext.setLoading true) ;;
    Wide.try_finally
      (Wide.try_catch
         ((* Set up auth state listener FIRST *)
          Wide.emit (XCall AuthOnAuthStateChange false) ;;
          (* THEN check for existing session *)
          '(data, _) <- Wide.await AuthGetSession (auth_getSession remote) ;;
          lift (setSession data) ;;
          match data with
          | Some s =>
              let u := AuthSession.user s in
              Wide.console_log "Found existing session for user:" ;;
              Wide.try_catch
                ('(profileData, _) <-
                    Wide.await (ProfilesSelect [Query.eq "id" (SessionUser.id u)])
                      (profiles_select remote [Query.eq "id" (SessionUser.id u)]) ;;
                 match profileData with
                 | Some p =>
                     Wide.console_log "Setting initial user data:" ;;
                     lift (setUser (Some (userData u p)))
                 | None =>
                     Wide.console_warn
                       "No profile found for user, trying to create one:" ;;
                     (* Create profile if it doesn't exist *)
                     '(_, insertError) <-
                        Wide.await (ProfilesInsertDefault (SessionUser.id u) RoleUser)
                          (profiles_insert_default remote (SessionUser.id u) RoleUser) ;;
                     match insertError with
                     | Some _ => Wide.console_error "Error creating profile:"
                     | None =>
                         Wide.console_log "Created profile and setting user data:" ;;
                         lift (setUser (Some (userData_default u)))
                     end
                 end)
                (fun error =>
                   Wide.console_error "Error fetching initial user profile:")
          | None => Wide.ret tt
          end ;;
          (* return () => { subscription.unsubscribe() } *)
          Wide.return_)
         (fun error => Wide.console_error "Auth initialization error:"))
      (lift (AuthContext.setLoading false))).

Local Close Scope wide_scope.

End Provider.

End AuthProvider.

(** * data-context: the admin clean-up *)

Module DataProvider.

Section Provider.
Variable remote : RemoteX.
(** The ISO timestamp of thirty days before now:
    [thirtyDaysAgo.setDate(thirtyDaysAgo.getDate() - 30)],
    [thirtyDaysAgo.toISOString()]. *)
Variable thirtyDaysAgo : string.
Variable user : option User.t.

Local Open Scope wide_scope.

(** Auto cleanup items older than 30 days *)
Definition cleanup : Wide.M DataContext.State unit :=
  Wide.async_function (
    (* if (!user?.id) return *)
    u <- match user with
         | Some u => if truthy (User.id u) then Wide.ret u else Wide.return_
         | None => Wide.return_
         end ;;
    if UserRole_eqb (User.role u) RoleAdmin then
      Wide.try_catch
        (_ <- Wide.await (ItemsDeleteLt "created_at" thirtyDaysAgo)
                (items_delete_lt remote "created_at" thirtyDaysAgo) ;;
         (* Refresh items after cleanup *)
         lift (DataContext.loadItems (base remote)))
        (fun error => Wide.console_error "Auto cleanup error:")
    else Wide.ret tt).

(** The effect on [user]: run cleanup on mount (the interval runs the
    same function once per day). *)
Definition cleanup_effect : Wide.M DataContext.State unit :=
  match user with
  | Some u => if UserRole_eqb (User.role u) RoleAdmin then cleanup else Wide.ret tt
  | None => Wide.ret tt
  end.

Local Close Scope wide_scope.

End Provider.

End DataProvider.

(** * The item form *)

Module NewItemForm.

(** [z.enum(["lost", "found"])] *)
Inductive ReportType := ReportLost | ReportFound.

(** [z.infer<typeof formSchema>], without the unused [image]. *)
Record Values := mkValues
  { name : string;
    description : string;
    type : ReportType;
    itemType : ItemType;
    location : string;
    contactInfo : string }.

Definition defaultValues : Values :=
  mkValues "" "" ReportLost Normal "" "".

(** [/^\d+$/.test(val)] *)
Definition is_digit (c : ascii) : bool :=
  match c with
  | "0" | "1" | "2" | "3" | "4" | "5" | "6" | "7" | "8" | "9" => true
  | _ => false
  end%char.

Definition only_digits (val : string) : bool :=
  match list_ascii_of_string val with
  | [] => false
  | cs => forallb is_digit cs
  end.

(** Whether [formSchema] accepts the values: every [min] and the
    [refine] hold. *)
Definition formSchema (v : Values) : bool :=
  Nat.leb 2 (String.length (name v)) &&
  Nat.leb 10 (String.length (description v)) &&
  Nat.leb 5 (String.length (location v)) &&
  Nat.leb 10 (String.length (contactInfo v)) &&
  only_digits (contactInfo v).

(** The component's state, with the item cache [addItem] works on. *)
Record State := mkState
  { isLoading : bool;
    file : option File;
    values : Values;
    cache : DataContext.State }.

Definition setIsLoading (b : bool) : Wide.M State unit :=
  Wide.modify (fun st => mkState b (file st) (values st) (cache st)).
Definition setFile (f : option File) : Wide.M State unit :=
  Wide.modify (fun st => mkState (isLoading st) f (values st) (cache st)).
(** [form.reset()] *)
Definition form_reset : Wide.M State unit :=
  Wide.modify (fun st => mkState (isLoading st) (file st) defaultValues (cache st)).
Definition set_cache (c : DataContext.State) (st : State) : State :=
  mkState (isLoading st) (file st) (values st) c.

Section Form.
Variable remote : RemoteX.
Variable toISOString : string -> option string.
(** [Date.now()] as text and [new Date().toISOString()], at submission. *)
Variable now_ms : string.
Variable now_iso : string.
(** [const { user } = useAuth()] *)
Variable user : option User.t.

Local Open Scope wide_scope.

(** [buckets?.some(bucket => bucket.name === 'items')] *)
Definition bucketExists (buckets : option (list string)) : bool :=
  match buckets with
  | Some names => existsb (fun n => n =? "items") names
  | None => false
  end.

(** Convert form values to match the Item interface structure *)
Definition newItemData (v : Values) (imagePath : option string) : NewItem.t :=
  NewItem.mk
    (or_else_opt (option_map User.name user) "Anonymous")
    (contactInfo v)
    (name v)
    imagePath
    (location v)
    now_iso
    (itemType v)
    (match type v with ReportLost => Lost | ReportFound => Found end).

Definition onSubmit (v : Values) : Wide.M State unit :=
  Wide.async_function (
    setIsLoading true ;;
    Wide.try_finally
      (Wide.try_catch
         ((* Check if storage bucket exists and create it if it doesn't *)
          '(buckets, _) <- Wide.await StorageListBuckets (storage_listBuckets remote) ;;
          (if bucketExists buckets then Wide.ret tt
           else _ <- Wide.await (StorageCreateBucket "items" true)
                       (storage_createBucket remote "items" true) ;;
                Wide.ret tt) ;;
          (* Upload image if provided *)
          st <- Wide.get ;;
          imagePath <-
            match file st with
            | Some f =>
                let path := (now_ms ++ "_" ++ file_name f)%string in
                '(data, error) <- Wide.await (StorageUpload "items" path f)
                                    (storage_upload remote "items" path f) ;;
                match error, data with
                | Some _, _ =>
                    Wide.console_error "Error uploading image:" ;;
                    Wide.toast_error "Failed to upload image. Please try again." ;;
                    Wide.ret None
                | None, Some uploaded =>
                    (* publicUrlData?.publicUrl || null *)
                    Wide.ret
                      match storage_getPublicUrl remote "items" uploaded with
                      | Some url => if truthy url then Some url else None
                      | None => None
                      end
                | None, None => Wide.ret None
                end
            | None => Wide.ret None
            end ;;
          Wide.zoom cache set_cache
            (lift (DataContext.addItem (base remote) toISOString user
                     (newItemData v imagePath))) ;;
          Wide.toast_success "Item reported successfully!" ;;
          form_reset ;;
          setFile None)
         (fun error =>
            Wide.console_error "Error reporting item:" ;;
            Wide.toast_error "Failed to report item. Please try again."))
      (setIsLoading false)).

(** [form.handleSubmit(onSubmit)]: [onSubmit] runs on the current values
    when the schema accepts them. *)
Definition handleSubmit : Wide.M State unit :=
  st <- Wide.get ;;
  if formSchema (values st) then onSubmit (values st) else Wide.ret tt.

Local Close Scope wide_scope.

End Form.

End NewItemForm.

(** * The registration page: Google sign-up *)

Module RegisterPageGoogle.

Definition handleGoogleLogin (remote : RemoteX) (origin : string)
  : Wide.M AuthContext.State unit :=
  Wide.async_function (
    Wide.try_catch
      (AuthProvider.loginWithGoogle remote origin)
      (* Redirect happens in OAuth flow *)
      (fun error => Wide.console_error "Google login error:")).

End RegisterPageGoogle.

(** * Observations on a wide run *)

Definition wcompletion {S A} (r : Completion A * S * list XEvent) : Completion A :=
  fst (fst r).
Definition wfinal {S A} (r : Completion A * S * list XEvent) : S := snd (fst r).
Definition wtrace {S A} (r : Completion A * S * list XEvent) : list XEvent := snd r.

(** The message [login] shows for an error. *)
Definition login_message (e : Err) : string :=
  if includes "Email not confirmed" (message e)
  then "Please check your email and confirm your account"
  else or_else (message e) "Failed to log in".

Definition is_xcall (ev : XEvent) : bool :=
  match ev with
  | XCall _ _ => true
  | Core (Call _ _) => true
  | _ => false
  end.

Definition is_profile_write (ev : XEvent) : bool :=
  match ev with
  | XCall (ProfilesInsertDefault _ _) _ => true
  | Core (Call (ProfilesInsert _ _ _) _) => true
  | _ => false
  end.

(** Sample backends for the wide requests. *)
Module ScenarioX.

Definition ann_session : AuthSession.t :=
  AuthSession.mk
    (SessionUser.mk "u-1" (Some "ann@sec.edu") None "2024-01-01T00:00:00Z").

Definition ann_profile : Profile.t :=
  Profile.mk "u-1" (Some "Ann") RoleUser (Some "2024-01-02T00:00:00Z").

Definition online : RemoteX :=
  mkRemoteX Scenario.online
    (fun _ _ => Resolved tt None)
    (fun _ _ _ => Resolved tt None)
    (Resolved (Some ann_session) None)
    (fun _ => Resolved (Some ann_profile) None)
    (fun _ _ => Resolved tt None)
    (fun _ _ => Resolved tt None)
    (Resolved (Some ["avatars"; "items"]) None)
    (fun _ _ => Resolved tt None)
    (fun _ path _ => Resolved (Some path) None)
    (fun bucket path =>
       Some ("https://cdn.example/" ++ bucket ++ "/" ++ path)%string).

(** Sign-in is refused because the address was never confirmed; there is
    no session, no profile row, no bucket, and uploads fail. *)
Definition unconfirmed : RemoteX :=
  mkRemoteX Scenario.offline
    (fun _ _ => Resolved tt (Some (mkErr "Email not confirmed")))
    (fun _ _ _ => Resolved tt (Some (mkErr "")))
    (Resolved None None)
    (fun _ => Resolved None (Some (mkErr "no rows")))
    (fun _ _ => Resolved tt (Some (mkErr "denied")))
    (fun _ _ => Rejected (mkErr "Failed to fetch"))
    (Resolved None (Some (mkErr "denied")))
    (fun _ _ => Resolved tt (Some (mkErr "denied")))
    (fun _ _ _ => Resolved None (Some (mkErr "denied")))
    (fun _ _ => None).

(** A backend with a session but no profile row yet. *)
Definition fresh_account : RemoteX :=
  mkRemoteX Scenario.online
    (fun _ _ => Resolved tt None)
    (fun _ _ _ => Resolved tt None)
    (Resolved (Some ann_session) None)
    (fun _ => Resolved None (Some (mkErr "no rows")))
    (fun _ _ => Resolved tt None)
    (fun _ _ => Resolved tt None)
    (Resolved (Some []) None)
    (fun _ _ => Resolved tt None)
    (fun _ _ _ => Resolved None (Some (mkErr "Payload too large")))
    (fun _ _ => None).

(** Inserts into [items] fail, storage works. *)
Definition items_down : RemoteX :=
  mkRemoteX Scenario.offline
    (fun _ _ => Resolved tt None)
    (fun _ _ _ => Resolved tt None)
    (Resolved (Some ann_session) None)
    (fun _ => Resolved (Some ann_profile) None)
    (fun _ _ => Resolved tt None)
    (fun _ _ => Resolved tt None)
    (Resolved (Some ["items"]) None)
    (fun _ _ => Resolved tt None)
    (fun _ path _ => Resolved (Some path) None)
    (fun bucket path =>
       Some ("https://cdn.example/" ++ bucket ++ "/" ++ path)%string).

Definition signed_in : AuthContext.State :=
  AuthContext.mkState (Some Scenario.ann)
    (Some (mkSession (mkAuthUser "u-1"))) false
    [("theme", "dark"); ("sb-project-auth-token", "live")] [].

Definition keys_form : NewItemForm.Values :=
  NewItemForm.mkValues "Keys" "A bunch of three keys" NewItemForm.ReportFound
    Emergency "canteen" "9876543210".

Definition form : NewItemForm.State :=
  NewItemForm.mkState false (Some (mkFile "keys.png")) keys_form Scenario.cache.

End ScenarioX.

(** The same form values with another description. *)
Definition with_description (d : string) (v : NewItemForm.Values)
  : NewItemForm.Values :=
  NewItemForm.mkValues (NewItemForm.name v) d (NewItemForm.type v)
    (NewItemForm.itemType v) (NewItemForm.location v)
    (NewItemForm.contactInfo v).

Definition is_items_insert (ev : XEvent) : bool :=
  match ev with
  | Core (Call (ItemsInsert _) _) => true
  | _ => false
  end.

(** * Proof steps *)

(** Unfold the combinators of the effect monad. *)
Ltac run_ops :=
  unfold async_function, try_finally, try_catch, bind, await, throw_if,
         toast_error, toast_success, console_error, emit, modify, throw,
         return_, ret.

(** Case analysis on the next reply, option or pair the run inspects. *)
Ltac break_match :=
  match goal with
  | |- context [match ?x with _ => _ end] =>
      match type of x with
      | Reply _ => destruct x as [? [?|]|?] eqn:?
      | option _ => destruct x eqn:?
      | SignUpData => destruct x as [? ?] eqn:?
      | unit => destruct x
      end
  end.

Lemma truthy_true s : s <> "" -> truthy s = true.
Proof. intros H. unfold truthy. apply negb_true_iff, String.eqb_neq, H. Qed.

Lemma ItemType_eqb_eq a b : ItemType_eqb a b = true <-> a = b.
Proof. destruct a, b; cbn; split; congruence. Qed.

Lemma ItemType_name_inj a b : ItemType_name a = ItemType_name b -> a = b.
Proof. destruct a, b; cbn; congruence. Qed.

Lemma with_status_frame s i :
  Item.status (Item.with_status s i) = s /\
  same_except_status i (Item.with_status s i).
Proof. unfold same_except_status. cbn. repeat split. Qed.

(** * Laws of the combinators *)

Section Combinators.
Context {S A B C : Type}.

Lemma bind_ret_l (a : A) (k : A -> M S B) s : bind (ret a) k s = k a s.
Proof. unfold bind, ret. destruct (k a s) as [[r s'] t]. reflexivity. Qed.

Lemma bind_ret_r (m : M S A) s : bind m ret s = m s.
Proof.
  unfold bind, ret. destruct (m s) as [[[a| |e] s'] t]; try reflexivity.
  cbn. now rewrite app_nil_r.
Qed.

Lemma bind_assoc (m : M S A) (k : A -> M S B) (h : B -> M S C) s :
  bind (bind m k) h s = bind m (fun a => bind (k a) h) s.
Proof.
  unfold bind. destruct (m s) as [[[a| |e] s1] t1]; try reflexivity.
  destruct (k a s1) as [[[b| |e] s2] t2]; try reflexivity.
  destruct (h b s2) as [[r s3] t3]. now rewrite app_assoc.
Qed.

(** A [throw] skips the rest of the block, and so does a [return]. *)
Lemma bind_throw (e : Err) (k : A -> M S B) s : bind (throw e) k s = throw e s.
Proof. reflexivity. Qed.

Lemma bind_return (k : A -> M S B) s : bind return_ k s = return_ s.
Proof. reflexivity. Qed.

(** [catch] handles a [throw] and lets a [return] through. *)
Lemma try_catch_throw (e : Err) (h : Err -> M S A) s :
  try_catch (throw e) h s = h e s.
Proof. unfold try_catch, throw. destruct (h e s) as [[r s'] t]. reflexivity. Qed.

Lemma try_catch_return (h : Err -> M S A) s :
  try_catch return_ h s = return_ s.
Proof. reflexivity. Qed.

(** [finally] runs after a [return] and after a [throw], and keeps the
    completion of the block. *)
Lemma try_finally_return (f : S -> S) s :
  try_finally (A := A) return_ (modify f) s = (Returned, f s, []).
Proof. reflexivity. Qed.

Lemma try_finally_throw (e : Err) (f : S -> S) s :
  try_finally (A := A) (throw e) (modify f) s = (Thrown e, f s, []).
Proof. reflexivity. Qed.

End Combinators.

(** * The session manager: [register] *)

Section SessionManager.
Variable remote : Remote.
Variables name email password : string.

(** The whole run of [register] on a non-empty code that is not the
    secret: the storage is cleaned, the global sign-out is attempted, the
    rejection is shown, and the function returns. *)
Lemma register_rejected_run code st :
  code <> "" -> code <> AuthContext.ADMIN_CODE ->
  AuthContext.register remote name email password (Some code) st =
  (Done tt,
   AuthContext.mkState (AuthContext.user st) (AuthContext.session st) false
     (AuthContext.remove_auth_keys
        (AuthContext.removeItem "supabase.auth.token"
           (AuthContext.localStorage st)))
     (AuthContext.remove_auth_keys (AuthContext.sessionStorage st)),
   [Call AuthSignOut (is_failure (auth_signOut remote));
    Toast ToastError "Invalid admin code"]).
Proof.
  intros Hne Hcode.
  unfold AuthContext.register.
  rewrite (truthy_true _ Hne).
  apply String.eqb_neq in Hcode. rewrite Hcode.
  unfold AuthContext.setLoading, AuthContext.cleanupAuthState. run_ops.
  destruct (auth_signOut remote) as [[] [e|]|e]; reflexivity.
Qed.

(** C1: [register] with a non-empty [adminCode] other than the fixed
    secret completes normally (it does not throw), shows the error toast
    "Invalid admin code", sends no sign-up request (the only request is
    the global sign-out that precedes the check), leaves the session and
    the user as they were, and sends no request carrying the [admin]
    role. *)
Theorem register_invalid_admin_code code st :
  code <> "" -> code <> "79041167197200060295" ->
  let r := AuthContext.register remote name email password (Some code) st in
  completion r = Done tt /\
  In (Toast ToastError "Invalid admin code") (trace r) /\
  existsb is_signUp (trace r) = false /\
  filter is_remote_call (trace r)
    = [Call AuthSignOut (is_failure (auth_signOut remote))] /\
  AuthContext.session (final r) = AuthContext.session st /\
  AuthContext.user (final r) = AuthContext.user st /\
  existsb grants_admin (trace r) = false.
Proof.
  intros Hne Hcode. cbn zeta.
  rewrite (register_rejected_run code st Hne Hcode).
  cbn. intuition.
Qed.

(** With the secret as [adminCode], whatever the backend replies, every
    profile insert that [register] sends carries the role [admin]. *)
Lemma register_admin_code_inserts st id role nm failed :
  In (Call (ProfilesInsert id role nm) failed)
     (trace (AuthContext.register remote name email password
               (Some AuthContext.ADMIN_CODE) st)) ->
  role = RoleAdmin.
Proof.
  unfold AuthContext.register.
  unfold AuthContext.setLoading, AuthContext.cleanupAuthState.
  change (truthy AuthContext.ADMIN_CODE) with true.
  change (AuthContext.ADMIN_CODE =? AuthContext.ADMIN_CODE) with true.
  cbv iota. run_ops. unfold trace.
  repeat (break_match; cbn); cbn; intuition congruence.
Qed.

(** C2: [register] with [adminCode] equal to the secret, when the
    sign-up resolves without error for a new account [u]: the sign-up
    request carries the role [admin], a profile insert for [u] with role
    [admin] and the given name is sent, and no other profile insert is. *)
Theorem register_admin_code_profile_role st u sess :
  auth_signUp remote email password name RoleAdmin
    = Resolved (mkSignUpData (Some u) sess) None ->
  let r := AuthContext.register remote name email password
             (Some "79041167197200060295") st in
  In (Call (AuthSignUp email password name RoleAdmin) false) (trace r) /\
  (exists failed,
      In (Call (ProfilesInsert (auth_id u) RoleAdmin name) failed) (trace r)) /\
  (forall id role nm failed,
      In (Call (ProfilesInsert id role nm) failed) (trace r) ->
      id = auth_id u /\ role = RoleAdmin /\ nm = name).
Proof.
  intros Hup. cbn zeta.
  unfold AuthContext.register.
  unfold AuthContext.setLoading, AuthContext.cleanupAuthState.
  change (truthy "79041167197200060295") with true.
  change ("79041167197200060295" =? AuthContext.ADMIN_CODE) with true.
  cbv iota. run_ops. unfold trace. rewrite Hup.
  repeat (break_match; cbn); cbn;
    (split; [auto | split; [eauto 10 | intros; intuition congruence]]).
Qed.

(** C10: [register] with the empty string as [adminCode] runs exactly as
    with no [adminCode]: after the global sign-out it sends the sign-up
    request with role [user], and every profile insert carries the role
    [user]; no request carries [admin]. *)
Theorem register_empty_admin_code st :
  let r := AuthContext.register remote name email password (Some "") st in
  r = AuthContext.register remote name email password None st /\
  (exists rest,
      trace r =
        Call AuthSignOut (is_failure (auth_signOut remote))
        :: Call (AuthSignUp email password name RoleUser)
                (is_failure (auth_signUp remote email password name RoleUser))
        :: rest) /\
  (forall id role nm failed,
      In (Call (ProfilesInsert id role nm) failed) (trace r) ->
      role = RoleUser) /\
  existsb grants_admin (trace r) = false.
Proof.
  cbn zeta. split; [reflexivity|].
  unfold AuthContext.register.
  unfold AuthContext.setLoading, AuthContext.cleanupAuthState.
  change (truthy "") with false.
  cbv iota. run_ops. unfold trace.
  repeat (break_match; cbn); cbn;
    (split; [eauto | split; [intros; intuition congruence | reflexivity]]).
Qed.

End SessionManager.

Lemma register_invalid_admin_code_witness :
  In (Toast ToastError "Invalid admin code")
     (trace (AuthContext.register Scenario.online "Ann" "ann@sec.edu" "s3cret!"
               (Some "wrong") Scenario.signed_out)) /\
  existsb is_signUp
     (trace (AuthContext.register Scenario.online "Ann" "ann@sec.edu" "s3cret!"
               (Some "wrong") Scenario.signed_out)) = false.
Proof.
  assert (H1 : "wrong" <> "") by (apply String.eqb_neq; reflexivity).
  assert (H2 : "wrong" <> "79041167197200060295")
    by (apply String.eqb_neq; reflexivity).
  destruct (register_invalid_admin_code Scenario.online "Ann" "ann@sec.edu"
              "s3cret!" "wrong" Scenario.signed_out H1 H2)
    as (_ & Htoast & Hcalls & _).
  split; [exact Htoast | exact Hcalls].
Defined.

Lemma register_admin_code_profile_role_witness :
  exists failed,
    In (Call (ProfilesInsert "u-1" RoleAdmin "Ann") failed)
       (trace (AuthContext.register Scenario.online "Ann" "ann@sec.edu"
                 "s3cret!" (Some "79041167197200060295") Scenario.signed_out)).
Proof.
  exact (proj1 (proj2
    (register_admin_code_profile_role Scenario.online "Ann" "ann@sec.edu"
       "s3cret!" Scenario.signed_out (mkAuthUser "u-1")
       (Some (mkSession (mkAuthUser "u-1"))) eq_refl))).
Defined.

(** * The item cache *)

(** ** Derived views and queries *)

Section Views.
Import DataContext.

(** C3: in every state of the cache, no item is both in
    [getEmergencyItems()] and in [getNormalItems()], and an item is in the
    local list exactly when it is in one of the two. *)
Theorem emergency_normal_partition (st : State) :
  (forall i, In i (getEmergencyItems st) -> ~ In i (getNormalItems st)) /\
  (forall i, In i (items st) <->
             In i (getEmergencyItems st) \/ In i (getNormalItems st)).
Proof.
  unfold getEmergencyItems, getNormalItems. split.
  - intros i He Hn.
    apply filter_In in He. apply filter_In in Hn.
    destruct He as [_ He], Hn as [_ Hn].
    apply ItemType_eqb_eq in He. apply ItemType_eqb_eq in Hn. congruence.
  - intros i. rewrite !filter_In. split.
    + intros Hi. destruct (Item.type i) eqn:Ht; cbn; auto.
    + intros [[Hi _]|[Hi _]]; exact Hi.
Qed.

(** The two views also split the list with multiplicities: nothing is
    dropped or repeated. *)
Lemma emergency_normal_permutation (st : State) :
  Permutation (items st) (getEmergencyItems st ++ getNormalItems st).
Proof.
  unfold getEmergencyItems, getNormalItems.
  induction (items st) as [|i l IH]; cbn.
  - constructor.
  - destruct (Item.type i); cbn.
    + apply Permutation_cons_app, IH.
    + apply perm_skip, IH.
Qed.

(** The type and status of the new local item are those of the row. *)
Lemma mapSupabaseItem_type_status row :
  Item.type (mapSupabaseItem row) = Row.type row /\
  Item.status (mapSupabaseItem row) = Row.status row.
Proof. split; reflexivity. Qed.

(** The filter [.eq('id', id)] selects exactly the rows with that id. *)
Lemma selects_eq_id value_leb id row :
  selects value_leb [Query.eq "id" id] row = true <-> Row.id row = id.
Proof.
  unfold selects. cbn. rewrite andb_true_r. apply String.eqb_eq.
Qed.

(** A row satisfies the filters of [delete_query] exactly when it lies
    within the date range, if one is given, and has the given type, if one
    other than ["all"] is given. *)
Lemma selects_delete_query value_leb dateRange type row :
  selects value_leb (delete_query dateRange type) row = true <->
  (forall range, dateRange = Some range ->
     value_leb (range_start range) (Row.date row) = true /\
     value_leb (Row.date row) (range_end range) = true) /\
  (forall t, type = Some (OfType t) -> Row.type row = t).
Proof.
  assert (Ht : forall t, (ItemType_name (Row.type row) =? ItemType_name t) = true
                         <-> Row.type row = t).
  { intros t. rewrite String.eqb_eq. split; [apply ItemType_name_inj|congruence]. }
  unfold selects.
  destruct dateRange as [[s e]|]; destruct type as [[t|]|]; cbn;
    rewrite ?andb_true_r, ?andb_true_iff, ?Ht;
    (split;
     [ intros H; split;
       [ intros range Heq; inversion Heq; subst; cbn; tauto
       | intros t' Heq; inversion Heq; subst; tauto ]
     | intros [Hd Hty];
       try specialize (Hd _ eq_refl); try specialize (Hty _ eq_refl);
       cbn in *; tauto ]).
Qed.

(** With no date range and no type, or the type ["all"], the query has
    no filter: it is unconstrained. *)
Lemma delete_query_unconstrained :
  delete_query None None = [] /\ delete_query None (Some All) = [].
Proof. split; reflexivity. Qed.

End Views.

(** ** Operations *)

Section ItemCache.
Import DataContext.
Variable remote : Remote.
Variable toISOString : string -> option string.

(** ** [loadItems] *)

(** [loadItems] never throws and always ends with [loading] off. *)
Lemma loadItems_completes st :
  completion (loadItems remote st) = Done tt /\
  loading (final (loadItems remote st)) = false.
Proof.
  unfold loadItems, setLoading, setItems. run_ops.
  destruct (items_select remote) as [[rows|] [e|]|e]; cbn; auto.
Qed.

(** A fetch that resolves with rows replaces the list by their images. *)
Lemma loadItems_success rows st :
  items_select remote = Resolved (Some rows) None ->
  items (final (loadItems remote st)) = map mapSupabaseItem rows.
Proof.
  intros H. unfold loadItems, setLoading, setItems. run_ops.
  rewrite H. reflexivity.
Qed.

(** C7: whatever the cache holds, when the fetch of [loadItems] fails
    (an error in the reply, or a rejected promise) the local list becomes
    [INITIAL_ITEMS], which has three items, and the failure is shown. *)
Theorem loadItems_failure_fallback st :
  is_failure (items_select remote) = true ->
  let r := loadItems remote st in
  items (final r) = INITIAL_ITEMS /\
  length (items (final r)) = 3 /\
  items (final r) <> [] /\
  In (Toast ToastError "Failed to load items") (trace r).
Proof.
  intros Hf. cbn zeta. unfold loadItems, setLoading, setItems. run_ops.
  destruct (items_select remote) as [d [e|]|e]; try discriminate Hf; cbn;
    (repeat split; auto; discriminate).
Qed.

(** ** [addItem] *)

(** The whole run of a successful [addItem], for any returned row. *)
Lemma addItem_success_run u n iso row st :
  toISOString (NewItem.date n) = Some iso ->
  items_insert remote (itemData u n iso) = Resolved (Some row) None ->
  addItem remote toISOString (Some u) n st =
  (Done tt,
   mkState (mapSupabaseItem row :: items st) false,
   [Call (ItemsInsert (itemData u n iso)) false;
    Toast ToastSuccess "Item added successfully"]).
Proof.
  intros Hiso Hins. unfold addItem. rewrite Hiso. run_ops.
  unfold setLoading, setItems. run_ops. rewrite Hins. reflexivity.
Qed.

(** Without a user nothing is sent and nothing changes. *)
Lemma addItem_requires_user n st :
  addItem remote toISOString None n st =
  (Done tt, st, [Toast ToastError "You must be logged in to add an item"]).
Proof. reflexivity. Qed.

(** C4: for a logged-in user [u] and a payload [n], when the insert
    resolves without error with the canonical row of the inserted record,
    the item built from that row is the head of the new local list, the
    previous list follows it, and its [type] and [status] are those of
    [n]. *)
Theorem addItem_prepends u n iso row st :
  toISOString (NewItem.date n) = Some iso ->
  items_insert remote (itemData u n iso) = Resolved (Some row) None ->
  canonical_row (itemData u n iso) row ->
  let r := addItem remote toISOString (Some u) n st in
  hd_error (items (final r)) = Some (mapSupabaseItem row) /\
  tl (items (final r)) = items st /\
  Item.type (mapSupabaseItem row) = NewItem.type n /\
  Item.status (mapSupabaseItem row) = NewItem.status n.
Proof.
  intros Hiso Hins Hcanon. cbn zeta.
  destruct Hcanon as (_ & _ & _ & _ & _ & _ & _ & Ht & Hs).
  rewrite (addItem_success_run _ _ _ _ _ Hiso Hins).
  cbn. auto.
Qed.

(** ** [updateItemStatus] *)

Lemma updateItemStatus_success_run id status st :
  is_failure (items_update remote status [Query.eq "id" id]) = false ->
  updateItemStatus remote id status st =
  (Done tt,
   mkState (map (fun item => if Item.id item =? id
                             then Item.with_status status item else item)
                (items st)) false,
   [Call (ItemsUpdate status [Query.eq "id" id]) false;
    Toast ToastSuccess ("Item marked as " ++ ItemStatus_name status)]).
Proof.
  intros Hok. unfold updateItemStatus, setLoading, setItems. run_ops.
  destruct (items_update remote status [Query.eq "id" id]) as [[] [e|]|e];
    try discriminate Hok; reflexivity.
Qed.

(** C6: when the update succeeds remotely, the only request sent is the
    update of [status] filtered by [id] (a filter that selects exactly the
    rows with that id), and the new local list is the old one, position by
    position, where a record with that id has the new status and all its
    other fields as before, and any other record is unchanged. *)
Theorem updateItemStatus_patches id status st :
  is_failure (items_update remote status [Query.eq "id" id]) = false ->
  let r := updateItemStatus remote id status st in
  filter is_remote_call (trace r)
    = [Call (ItemsUpdate status [Query.eq "id" id]) false] /\
  (forall value_leb row,
      selects value_leb [Query.eq "id" id] row = true <-> Row.id row = id) /\
  Forall2 (fun old new =>
             (Item.id old = id ->
              Item.status new = status /\ same_except_status old new) /\
             (Item.id old <> id -> new = old))
          (items st) (items (final r)).
Proof.
  intros Hok. cbn zeta. rewrite (updateItemStatus_success_run _ _ _ Hok).
  split; [reflexivity|]. split; [intros; apply selects_eq_id|].
  cbn. induction (items st) as [|i l IH]; cbn; constructor; [|exact IH].
  destruct (Item.id i =? id) eqn:E.
  - split; [|apply String.eqb_eq in E; congruence].
    intros _. apply with_status_frame.
  - split; [apply String.eqb_neq in E; congruence|reflexivity].
Qed.

(** ** [deleteItemsByFilter] *)

(** C5: when the current user is null or has a role other than [admin],
    [deleteItemsByFilter] sends no request at all (so no remote delete),
    leaves the provider's state, and so the local list, as it was, and its
    only effect is the error toast. *)
Theorem deleteItemsByFilter_non_admin user dateRange type st :
  user = None \/ (exists u, user = Some u /\ User.role u <> RoleAdmin) ->
  let r := deleteItemsByFilter remote user dateRange type st in
  existsb is_items_delete (trace r) = false /\
  existsb is_remote_call (trace r) = false /\
  items (final r) = items st /\
  final r = st /\
  trace r = [Toast ToastError "Only admins can perform batch deletions"] /\
  completion r = Done tt.
Proof.
  intros H.
  assert (Hn : not_admin user = true).
  { destruct H as [->|[u [-> Hr]]]; [reflexivity|].
    cbn. destruct (User.role u); [reflexivity|congruence]. }
  cbn zeta. unfold deleteItemsByFilter. rewrite Hn. cbn. intuition.
Qed.

(** C9: for an admin, [deleteItemsByFilter] sends one delete request; a
    row satisfies its filters exactly when its [date] is within the
    bounds, both included, if a range is supplied, and its [type] equals
    the supplied one, if a type other than ["all"] is supplied; and when
    that request succeeds, the run continues with exactly the run of
    [loadItems] and ends in the state [loadItems] leaves. *)
Theorem deleteItemsByFilter_admin_query value_leb u dateRange type st :
  User.role u = RoleAdmin ->
  let query := delete_query dateRange type in
  let r := deleteItemsByFilter remote (Some u) dateRange type st in
  filter is_items_delete (trace r)
    = [Call (ItemsDelete query) (is_failure (items_delete remote query))] /\
  (forall row,
      selects value_leb query row = true <->
      (forall range, dateRange = Some range ->
         value_leb (range_start range) (Row.date row) = true /\
         value_leb (Row.date row) (range_end range) = true) /\
      (forall t, type = Some (OfType t) -> Row.type row = t)) /\
  (is_failure (items_delete remote query) = false ->
   let reload := loadItems remote (mkState (items st) true) in
   final r = final reload /\
   trace r = Call (ItemsDelete query) false :: trace reload
             ++ [Toast ToastSuccess "Items deleted successfully"]).
Proof.
  intros Hrole. cbn zeta.
  split; [|split; [intros row; apply selects_delete_query|]].
  - unfold deleteItemsByFilter, not_admin, loadItems, setLoading, setItems.
    rewrite Hrole. run_ops.
    destruct (items_delete remote (delete_query dateRange type)) as [[] [e|]|e];
      cbn; auto.
    destruct (items_select remote) as [[rows|] [e|]|e]; reflexivity.
  - intros Hok.
    unfold deleteItemsByFilter, not_admin, loadItems, setLoading, setItems.
    rewrite Hrole. run_ops.
    destruct (items_delete remote (delete_query dateRange type)) as [[] [e|]|e];
      try discriminate Hok.
    destruct (items_select remote) as [[rows|] [e|]|e]; cbn; auto.
Qed.

(** ** Failure policy *)

(** C8: for each of [addItem], [updateItemStatus], [deleteItem] and
    [deleteItemsByFilter], if the run contains a failed request that
    changes the [items] table (insert, update or delete: an error in the
    reply, or a rejected promise), then the local list after the run is
    the list before it, and an error toast is shown. *)
Theorem mutation_failure_keeps_items user op st :
  existsb is_failed_mutation
    (trace (perform remote toISOString user op st)) = true ->
  items (final (perform remote toISOString user op st)) = items st /\
  existsb is_error_toast
    (trace (perform remote toISOString user op st)) = true.
Proof.
  destruct op as [n|id status|id|dr ty]; cbn [perform].
  - unfold addItem, setLoading, setItems. run_ops.
    destruct user as [u|]; [|cbn; discriminate].
    destruct (toISOString (NewItem.date n)) as [iso|]; [|cbn; discriminate].
    destruct (items_insert remote (itemData u n iso)) as [[row|] [e|]|e];
      cbn; auto; discriminate.
  - unfold updateItemStatus, setLoading, setItems. run_ops.
    destruct (items_update remote status [Query.eq "id" id]) as [[] [e|]|e];
      cbn; auto; discriminate.
  - unfold deleteItem, setLoading, setItems. run_ops.
    destruct (items_delete remote [Query.eq "id" id]) as [[] [e|]|e];
      cbn; auto; discriminate.
  - unfold deleteItemsByFilter, loadItems, setLoading, setItems. run_ops.
    destruct (not_admin user); [cbn; discriminate|].
    destruct (items_delete remote (delete_query dr ty)) as [[] [e|]|e];
      cbn; auto.
    destruct (items_select remote) as [[rows|] [e|]|e]; cbn; discriminate.
Qed.

(** The run of a mutation contains a failed request on [items] exactly
    when the backend's reply to the request it sends is a failure. *)
Lemma failed_mutation_iff user op st :
  existsb is_failed_mutation
    (trace (perform remote toISOString user op st)) =
  match op with
  | AddItem n =>
      match user, toISOString (NewItem.date n) with
      | Some u, Some iso => is_failure (items_insert remote (itemData u n iso))
      | _, _ => false
      end
  | UpdateItemStatus id status =>
      is_failure (items_update remote status [Query.eq "id" id])
  | DeleteItem id => is_failure (items_delete remote [Query.eq "id" id])
  | DeleteItemsByFilter dr ty =>
      negb (not_admin user)
      && is_failure (items_delete remote (delete_query dr ty))
  end.
Proof.
  destruct op as [n|id status|id|dr ty]; cbn [perform].
  - unfold addItem, setLoading, setItems. run_ops.
    destruct user as [u|]; [|reflexivity].
    destruct (toISOString (NewItem.date n)) as [iso|]; [|reflexivity].
    destruct (items_insert remote (itemData u n iso)) as [[row|] [e|]|e];
      reflexivity.
  - unfold updateItemStatus, setLoading, setItems. run_ops.
    destruct (items_update remote status [Query.eq "id" id]) as [[] [e|]|e];
      reflexivity.
  - unfold deleteItem, setLoading, setItems. run_ops.
    destruct (items_delete remote [Query.eq "id" id]) as [[] [e|]|e];
      reflexivity.
  - unfold deleteItemsByFilter, loadItems, setLoading, setItems. run_ops.
    destruct (not_admin user); [reflexivity|].
    destruct (items_delete remote (delete_query dr ty)) as [[] [e|]|e];
      try reflexivity.
    destruct (items_select remote) as [[rows|] [e|]|e]; reflexivity.
Qed.

End ItemCache.

(** * The scenarios, run *)

(** [cleanupAuthState] drops the provider's keys and keeps the rest. *)
Example cleanupAuthState_run :
  AuthContext.localStorage
    (final (AuthContext.cleanupAuthState
              (AuthContext.mkState None None false
                 [("theme", "dark"); ("supabase.auth.token", "t0");
                  ("sb-project-auth-token", "t1");
                  ("supabase.auth.refresh", "t2"); ("my-sb-cache", "c")]
                 [])))
  = [("theme", "dark")].
Proof. reflexivity. Qed.

(** Registering with the code ["wrong"]: nothing but the clean-up, the
    sign-out and the rejection. *)
Example register_wrong_code_run :
  AuthContext.register Scenario.online "Ann" "ann@sec.edu" "s3cret!"
    (Some "wrong") Scenario.signed_out
  = (Done tt,
     AuthContext.mkState None None false [("theme", "dark")] [],
     [Call AuthSignOut false; Toast ToastError "Invalid admin code"]).
Proof. reflexivity. Qed.

(** Registering with the secret on a backend that accepts. *)
Example register_secret_run :
  trace (AuthContext.register Scenario.online "Ann" "ann@sec.edu" "s3cret!"
           (Some "79041167197200060295") Scenario.signed_out)
  = [Call AuthSignOut false;
     Call (AuthSignUp "ann@sec.edu" "s3cret!" "Ann" RoleAdmin) false;
     Call (ProfilesInsert "u-1" RoleAdmin "Ann") false;
     Toast ToastSuccess "Registration successful! "].
Proof. reflexivity. Qed.

(** Registering when the provider is down: the error is shown and
    rethrown. *)
Example register_offline_run :
  AuthContext.register Scenario.offline "Ann" "ann@sec.edu" "s3cret!" None
    Scenario.signed_out
  = (Thrown Scenario.unreachable,
     AuthContext.mkState None None false [("theme", "dark")] [],
     [Call AuthSignOut true;
      Call (AuthSignUp "ann@sec.edu" "s3cret!" "Ann" RoleUser) true;
      ConsoleError "Registration error:";
      Toast ToastError "Failed to fetch"]).
Proof. reflexivity. Qed.

(** [updateItemStatus("item1", "found")] on the sample cache. *)
Example updateItemStatus_item1_run :
  DataContext.updateItemStatus Scenario.online "item1" Found Scenario.cache
  = (Done tt,
     DataContext.mkState
       [ Item.mk "item1" "2" "Test User" "9876543210" "Water Bottle"
           (Some "https://images.unsplash.com/photo-1618160702438-9b02ab6515c9")
           "lost" "2023-05-15T10:30:00Z" Normal Found "2023-05-15T10:30:00Z";
         Item.mk "item2" "2" "Test User" "9876543210" "Laptop" None
           "lost" "2023-05-17T14:20:00Z" Emergency Lost "2023-05-17T14:20:00Z";
         Item.mk "item3" "1" "Admin User" "9876543211" "Wallet" None
           "found" "2023-05-18T09:15:00Z" Normal Found "2023-05-18T09:15:00Z" ]
       false,
     [Call (ItemsUpdate Found [Query.eq "id" "item1"]) false;
      Toast ToastSuccess "Item marked as found"]).
Proof. reflexivity. Qed.

(** A batch deletion by an admin, followed by the reload. *)
Example deleteItemsByFilter_root_run :
  DataContext.deleteItemsByFilter Scenario.online (Some Scenario.root)
    (Some Scenario.february) (Some DataContext.All) Scenario.cache
  = (Done tt,
     DataContext.mkState
       [ Item.mk "item7" "u-1" "Ann" "" "Umbrella" None "library"
           "2024-02-01" Normal Lost "2024-02-01T08:00:00Z" ]
       false,
     [Call (ItemsDelete [Query.gte "date" "2024-02-01";
                         Query.lte "date" "2024-02-29"]) false;
      Call ItemsSelect false;
      Toast ToastSuccess "Items deleted successfully"]).
Proof. reflexivity. Qed.

(** The same deletion when the store is down, and a reload on its own. *)
Example deleteItemsByFilter_offline_run :
  DataContext.deleteItemsByFilter Scenario.offline (Some Scenario.root)
    (Some Scenario.february) (Some DataContext.All) Scenario.cache
  = (Done tt, Scenario.cache,
     [Call (ItemsDelete [Query.gte "date" "2024-02-01";
                         Query.lte "date" "2024-02-29"]) true;
      ConsoleError "";
      Toast ToastError "Failed to delete items"]).
Proof. reflexivity. Qed.

Example loadItems_offline_run :
  DataContext.loadItems Scenario.offline (DataContext.mkState [] false)
  = (Done tt, Scenario.cache,
     [Call ItemsSelect true;
      ConsoleError "Error loading items:";
      Toast ToastError "Failed to load items"]).
Proof. reflexivity. Qed.

(** The two views of the sample cache. *)
Example views_of_sample_cache :
  map Item.id (DataContext.getEmergencyItems Scenario.cache) = ["item2"] /\
  map Item.id (DataContext.getNormalItems Scenario.cache) = ["item1"; "item3"].
Proof. split; reflexivity. Qed.

Lemma loadItems_failure_fallback_witness :
  DataContext.items
    (final (DataContext.loadItems Scenario.offline
              (DataContext.mkState [] true)))
  = DataContext.INITIAL_ITEMS.
Proof.
  exact (proj1 (loadItems_failure_fallback Scenario.offline
                  (DataContext.mkState [] true) eq_refl)).
Defined.

Lemma addItem_prepends_witness :
  hd_error
    (DataContext.items
       (final (DataContext.addItem Scenario.online Scenario.toISOString
                 (Some Scenario.ann) Scenario.keys_report Scenario.cache)))
  = Some (Item.mk "item8" "u-1" "Ann" "9876543210" "Keys" None "canteen"
            "2024-02-02" Emergency Found "2024-02-02T09:00:00Z").
Proof.
  refine (proj1 (addItem_prepends Scenario.online Scenario.toISOString
                   Scenario.ann Scenario.keys_report "2024-02-02T09:00:00Z"
                   (Scenario.stored "item8" "2024-02-02T09:00:00Z"
                      (DataContext.itemData Scenario.ann Scenario.keys_report
                         "2024-02-02T09:00:00Z"))
                   Scenario.cache eq_refl eq_refl _)).
  unfold canonical_row. simpl. repeat split.
Defined.

Lemma updateItemStatus_patches_witness :
  map Item.status
    (DataContext.items
       (final (DataContext.updateItemStatus Scenario.online "item1" Found
                 Scenario.cache)))
  = [Found; Lost; Found] /\
  filter is_remote_call
    (trace (DataContext.updateItemStatus Scenario.online "item1" Found
              Scenario.cache))
  = [Call (ItemsUpdate Found [Query.eq "id" "item1"]) false].
Proof.
  split; [reflexivity|].
  exact (proj1 (updateItemStatus_patches Scenario.online "item1" Found
                  Scenario.cache eq_refl)).
Defined.

Lemma deleteItemsByFilter_non_admin_witness :
  final (DataContext.deleteItemsByFilter Scenario.online (Some Scenario.ann)
           (Some Scenario.february) (Some DataContext.All) Scenario.cache)
  = Scenario.cache.
Proof.
  refine (proj1 (proj2 (proj2 (proj2
    (deleteItemsByFilter_non_admin Scenario.online (Some Scenario.ann)
       (Some Scenario.february) (Some DataContext.All) Scenario.cache _))))).
  right. exists Scenario.ann. split; [reflexivity|].
  simpl. discriminate.
Defined.

Lemma deleteItemsByFilter_admin_query_witness :
  filter is_items_delete
    (trace (DataContext.deleteItemsByFilter Scenario.online (Some Scenario.root)
              (Some Scenario.february) (Some (DataContext.OfType Emergency))
              Scenario.cache))
  = [Call (ItemsDelete [Query.gte "date" "2024-02-01";
                        Query.lte "date" "2024-02-29";
                        Query.eq "type" "emergency"]) false].
Proof.
  exact (proj1 (deleteItemsByFilter_admin_query Scenario.online String.leb
                  Scenario.root (Some Scenario.february)
                  (Some (DataContext.OfType Emergency)) Scenario.cache
                  eq_refl)).
Defined.

Lemma mutation_failure_keeps_items_witness :
  DataContext.items
    (final (DataContext.perform Scenario.offline Scenario.toISOString
              (Some Scenario.ann) (DataContext.DeleteItem "item2")
              Scenario.cache))
  = DataContext.INITIAL_ITEMS.
Proof.
  exact (proj1 (mutation_failure_keeps_items Scenario.offline
                  Scenario.toISOString (Some Scenario.ann)
                  (DataContext.DeleteItem "item2") Scenario.cache eq_refl)).
Defined.

(** * Strings *)

Lemma prefix_app a b : prefix a b = true <-> exists post, b = (a ++ post)%string.
Proof.
  revert b. induction a as [|c a IH]; intros [|d b]; cbn.
  - split; [intros _; exists ""; reflexivity | reflexivity].
  - split; [intros _; exists (String d b); reflexivity | reflexivity].
  - split; [discriminate | intros [post H]; discriminate H].
  - destruct (ascii_dec c d) as [->|Hne].
    + rewrite IH. split; intros [post H]; exists post; congruence.
    + split; [discriminate | intros [post H]; congruence].
Qed.

(** [s.includes(sub)] holds exactly when [sub] occurs in [s]. *)
Lemma includes_spec sub s :
  includes sub s = true <-> exists pre post, s = (pre ++ sub ++ post)%string.
Proof.
  induction s as [|c s IH]; cbn [includes]; rewrite orb_true_iff, prefix_app.
  - split.
    + intros [[post H]|H]; [|discriminate]. exists "", post. exact H.
    + intros [pre [post H]]. left.
      destruct pre; [exists post; exact H | discriminate H].
  - rewrite IH. split.
    + intros [[post H]|[pre [post H]]].
      * exists "", post. exact H.
      * exists (String c pre), post. cbn. now rewrite H.
    + intros [pre [post H]]. destruct pre as [|d pre]; cbn in H.
      * left. exists post. exact H.
      * right. exists pre, post. congruence.
Qed.

(** [split_head c s] is the part of [s] before the first [c]. *)
Lemma split_head_spec c s :
  (forall a, In a (list_ascii_of_string (split_head c s)) -> a <> c) /\
  (split_head c s = s \/
   exists rest, s = (split_head c s ++ String c rest)%string).
Proof.
  induction s as [|a s [IHno IHsplit]]; cbn.
  - split; [intros a []|left; reflexivity].
  - destruct (Ascii.eqb a c) eqn:E; cbn.
    + apply Ascii.eqb_eq in E. subst a.
      split; [intros a []|right; exists s; reflexivity].
    + apply Ascii.eqb_neq in E. split.
      * intros b [<-|Hb]; [exact E|apply IHno, Hb].
      * destruct IHsplit as [->|[rest Hr]]; [left; reflexivity|].
        right. exists rest. now rewrite Hr at 1.
Qed.

Lemma split_head_app c d rest :
  (forall a, In a (list_ascii_of_string d) -> a <> c) ->
  split_head c (d ++ String c rest)%string = d.
Proof.
  induction d as [|a d IH]; cbn; intros Hno.
  - now rewrite Ascii.eqb_refl.
  - destruct (Ascii.eqb a c) eqn:E.
    + apply Ascii.eqb_eq in E. exfalso. apply (Hno a); auto.
    + rewrite IH; auto.
Qed.

(** * Browser storage *)

Section Storage.
Import AuthContext.

Lemma filter_filter {A} (p q : A -> bool) l :
  filter p (filter q l) = filter (fun x => q x && p x) l.
Proof.
  induction l as [|x l IH]; cbn; [reflexivity|].
  destruct (q x); cbn; [destruct (p x)|]; now rewrite IH.
Qed.

Lemma filter_all {A} (p : A -> bool) l :
  (forall x, In x l -> p x = true) -> filter p l = l.
Proof.
  induction l as [|x l IH]; cbn; intros H; [reflexivity|].
  rewrite (H x) by auto. rewrite IH; auto.
Qed.

(** Removing the listed keys that are auth keys, one by one, is one pass
    over the entries. *)
Lemma remove_listed_auth_keys ks (acc : Storage) :
  fold_left (fun acc key => if is_auth_key key then removeItem key acc else acc)
            ks acc
  = filter (fun kv => negb (is_auth_key (fst kv)
                            && existsb (String.eqb (fst kv)) ks)) acc.
Proof.
  revert acc. induction ks as [|k ks IH]; intros acc; cbn [fold_left].
  - symmetry. apply filter_all. intros kv _. cbn. now rewrite andb_false_r.
  - rewrite IH. destruct (is_auth_key k) eqn:Hk.
    + unfold removeItem. rewrite filter_filter. apply filter_ext.
      intros kv. cbn. destruct (fst kv =? k) eqn:E; cbn.
      * apply String.eqb_eq in E. rewrite E, Hk. reflexivity.
      * reflexivity.
    + apply filter_ext. intros kv. cbn.
      destruct (fst kv =? k) eqn:E; cbn; [|reflexivity].
      apply String.eqb_eq in E. rewrite E, Hk. reflexivity.
Qed.

Lemma remove_auth_keys_filter (st : Storage) :
  remove_auth_keys st = filter (fun kv => negb (is_auth_key (fst kv))) st.
Proof.
  unfold remove_auth_keys. rewrite remove_listed_auth_keys.
  apply filter_ext_in. intros kv Hin.
  assert (H : existsb (String.eqb (fst kv)) (keys st) = true).
  { apply existsb_exists. exists (fst kv). split.
    - unfold keys. now apply in_map.
    - apply String.eqb_refl. }
  rewrite H. now rewrite andb_true_r.
Qed.

Lemma is_auth_key_spec key :
  is_auth_key key = true <->
  (exists rest, key = ("supabase.auth." ++ rest)%string) \/
  (exists pre post, key = (pre ++ "sb-" ++ post)%string).
Proof.
  unfold is_auth_key. now rewrite orb_true_iff, prefix_app, includes_spec.
Qed.

(** The whole effect of [cleanupAuthState]: one pass over each storage. *)
Lemma cleanupAuthState_filters st :
  cleanupAuthState st =
  (Done tt,
   mkState (user st) (session st) (loading st)
     (filter not_auth_entry (localStorage st))
     (filter not_auth_entry (sessionStorage st)),
   []).
Proof.
  unfold cleanupAuthState, modify.
  rewrite !remove_auth_keys_filter. unfold removeItem. rewrite filter_filter.
  do 3 f_equal. apply filter_ext. intros kv. unfold not_auth_entry.
  destruct (fst kv =? "supabase.auth.token") eqn:E; [|reflexivity].
  apply String.eqb_eq in E. rewrite E. reflexivity.
Qed.

(** X1: [cleanupAuthState] completes without any event, leaves [user],
    [session] and [loading] alone, and keeps of each storage, in order,
    exactly the entries whose key neither starts with [supabase.auth.] nor
    contains [sb-]. *)
Theorem cleanupAuthState_keeps_other_entries st :
  let r := cleanupAuthState st in
  completion r = Done tt /\ trace r = [] /\
  user (final r) = user st /\ session (final r) = session st /\
  loading (final r) = loading st /\
  localStorage (final r) = filter not_auth_entry (localStorage st) /\
  sessionStorage (final r) = filter not_auth_entry (sessionStorage st) /\
  (forall k v,
      In (k, v) (localStorage (final r)) <->
      In (k, v) (localStorage st) /\
      ~ ((exists rest, k = ("supabase.auth." ++ rest)%string) \/
         (exists pre post, k = (pre ++ "sb-" ++ post)%string))).
Proof.
  cbn zeta. rewrite cleanupAuthState_filters.
  do 7 (split; [reflexivity|]).
  intros k v. cbn. rewrite filter_In. unfold not_auth_entry. cbn [fst].
  rewrite negb_true_iff, <- is_auth_key_spec.
  destruct (is_auth_key k); intuition congruence.
Qed.

(** Cleaning twice is cleaning once. *)
Lemma cleanupAuthState_idempotent st :
  final (cleanupAuthState (final (cleanupAuthState st)))
  = final (cleanupAuthState st).
Proof.
  rewrite !cleanupAuthState_filters. cbn.
  rewrite !filter_filter. f_equal; apply filter_ext; intros kv;
    destruct (not_auth_entry kv); reflexivity.
Qed.

End Storage.

(** * The item cache: lookups after mutations *)

Section Lookups.
Import DataContext.
Variable remote : Remote.
Variable toISOString : string -> option string.

Lemma find_filter_other (id id' : string) (l : list Item.t) :
  id' <> id ->
  find (fun item => Item.id item =? id')
       (filter (fun item => negb (Item.id item =? id)) l)
  = find (fun item => Item.id item =? id') l.
Proof.
  intros Hne. induction l as [|i l IH]; cbn; [reflexivity|].
  destruct (Item.id i =? id) eqn:E; cbn.
  - destruct (Item.id i =? id') eqn:E'; [|exact IH].
    apply String.eqb_eq in E, E'. congruence.
  - now rewrite IH.
Qed.

Lemma find_filter_same (id : string) (l : list Item.t) :
  find (fun item => Item.id item =? id)
       (filter (fun item => negb (Item.id item =? id)) l) = None.
Proof.
  induction l as [|i l IH]; cbn; [reflexivity|].
  destruct (Item.id i =? id) eqn:E; cbn; [exact IH|]. now rewrite E.
Qed.

Lemma find_map_status (id id' : string) status (l : list Item.t) :
  find (fun item => Item.id item =? id')
       (map (fun item => if Item.id item =? id
                         then Item.with_status status item else item) l)
  = if id' =? id
    then option_map (Item.with_status status)
           (find (fun item => Item.id item =? id') l)
    else find (fun item => Item.id item =? id') l.
Proof.
  induction l as [|i l IH]; cbn.
  - now destruct (id' =? id).
  - destruct (Item.id i =? id) eqn:E; cbn.
    + apply String.eqb_eq in E. rewrite E.
      rewrite (String.eqb_sym id id'). destruct (id' =? id); [reflexivity|exact IH].
    + destruct (Item.id i =? id') eqn:E'.
      * apply String.eqb_eq in E'. rewrite <- E', E. reflexivity.
      * exact IH.
Qed.

(** [getItemById] returns the first item with the id, and nothing exactly
    when no item has it. *)
Lemma getItemById_first_match st id :
  match getItemById st id with
  | Some item =>
      Item.id item = id /\
      exists before after,
        items st = before ++ item :: after /\
        forall i, In i before -> Item.id i <> id
  | None => forall i, In i (items st) -> Item.id i <> id
  end.
Proof.
  unfold getItemById. induction (items st) as [|i l IH]; cbn.
  - intros i [].
  - destruct (Item.id i =? id) eqn:E.
    + apply String.eqb_eq in E. split; [exact E|].
      exists [], l. split; [reflexivity|intros j []].
    + apply String.eqb_neq in E.
      destruct (find (fun item => Item.id item =? id) l) as [item|].
      * destruct IH as [Hid (before & after & Hl & Hb)]. split; [exact Hid|].
        exists (i :: before), after. split; [cbn; now rewrite Hl|].
        intros j [<-|Hj]; auto.
      * intros j [<-|Hj]; auto.
Qed.

Lemma deleteItem_success_run id st :
  is_failure (items_delete remote [Query.eq "id" id]) = false ->
  deleteItem remote id st =
  (Done tt,
   mkState (filter (fun item => negb (Item.id item =? id)) (items st)) false,
   [Call (ItemsDelete [Query.eq "id" id]) false;
    Toast ToastSuccess "Item deleted successfully"]).
Proof.
  intros Hok. unfold deleteItem, setLoading, setItems. run_ops.
  destruct (items_delete remote [Query.eq "id" id]) as [[] [e|]|e];
    try discriminate Hok; reflexivity.
Qed.

(** X17: When the remote deletion succeeds, [deleteItem] has sent one
    request, the delete filtered by the id; the local list keeps exactly
    the items with another id; [getItemById] no longer finds the id and
    finds every other id as before. *)
Theorem deleteItem_removes_by_id id st :
  is_failure (items_delete remote [Query.eq "id" id]) = false ->
  let r := deleteItem remote id st in
  filter is_remote_call (trace r) = [Call (ItemsDelete [Query.eq "id" id]) false] /\
  (forall i, In i (items (final r)) <-> In i (items st) /\ Item.id i <> id) /\
  getItemById (final r) id = None /\
  (forall id', id' <> id -> getItemById (final r) id' = getItemById st id').
Proof.
  intros Hok. cbn zeta. rewrite (deleteItem_success_run _ _ Hok).
  unfold getItemById. cbn. split; [reflexivity|]. split; [|split].
  - intros i. rewrite filter_In, negb_true_iff, String.eqb_neq. reflexivity.
  - apply find_filter_same.
  - intros id' Hne. now apply find_filter_other.
Qed.

(** X18: After a successful [updateItemStatus], [getItemById] of that id
    gives the item it gave before with the new status (nothing if there
    was none), and of any other id what it gave before. *)
Theorem updateItemStatus_then_lookup id status st :
  is_failure (items_update remote status [Query.eq "id" id]) = false ->
  let r := updateItemStatus remote id status st in
  getItemById (final r) id
    = option_map (Item.with_status status) (getItemById st id) /\
  (forall id', id' <> id -> getItemById (final r) id' = getItemById st id').
Proof.
  intros Hok. cbn zeta. rewrite (updateItemStatus_success_run _ _ _ _ Hok).
  unfold getItemById. cbn. rewrite !find_map_status. split.
  - now rewrite String.eqb_refl.
  - intros id' Hne. rewrite find_map_status.
    apply String.eqb_neq in Hne. now rewrite Hne.
Qed.

(** X19: After a successful [addItem], [getItemById] of the returned row's
    id gives the new item, even when an older item has the same id; every
    other id is found as before; the list is one longer. *)
Theorem addItem_then_lookup u n iso row st :
  toISOString (NewItem.date n) = Some iso ->
  items_insert remote (itemData u n iso) = Resolved (Some row) None ->
  let r := addItem remote toISOString (Some u) n st in
  getItemById (final r) (Row.id row) = Some (mapSupabaseItem row) /\
  (forall id', id' <> Row.id row ->
               getItemById (final r) id' = getItemById st id') /\
  length (items (final r)) = S (length (items st)).
Proof.
  intros Hiso Hins. cbn zeta.
  rewrite (addItem_success_run _ _ _ _ _ _ _ Hiso Hins).
  unfold getItemById. cbn. rewrite String.eqb_refl.
  split; [reflexivity|]. split; [|reflexivity].
  intros id' Hne. destruct (Row.id row =? id') eqn:E; [|reflexivity].
  apply String.eqb_eq in E. congruence.
Qed.

(** After a successful [addItem] that returned the canonical row, the new
    item heads the reporter's own items and the view of its type; the
    other view is unchanged. *)
Lemma addItem_then_views u n iso row st :
  toISOString (NewItem.date n) = Some iso ->
  items_insert remote (itemData u n iso) = Resolved (Some row) None ->
  canonical_row (itemData u n iso) row ->
  let r := addItem remote toISOString (Some u) n st in
  let newItem := mapSupabaseItem row in
  getUserItems (Some u) (final r) = newItem :: getUserItems (Some u) st /\
  match NewItem.type n with
  | Emergency =>
      getEmergencyItems (final r) = newItem :: getEmergencyItems st /\
      getNormalItems (final r) = getNormalItems st
  | Normal =>
      getNormalItems (final r) = newItem :: getNormalItems st /\
      getEmergencyItems (final r) = getEmergencyItems st
  end.
Proof.
  intros Hiso Hins Hcanon. cbn zeta.
  destruct Hcanon as (Hu & _ & _ & _ & _ & _ & _ & Ht & _).
  rewrite (addItem_success_run _ _ _ _ _ _ _ Hiso Hins).
  unfold getUserItems, getEmergencyItems, getNormalItems. cbn.
  rewrite Hu, Ht. cbn. rewrite String.eqb_refl.
  split; [reflexivity|]. destruct (NewItem.type n); cbn; split; reflexivity.
Qed.

End Lookups.

(** * The item cache: what every operation keeps *)

Section Invariants.
Import DataContext.
Variable remote : Remote.
Variable toISOString : string -> option string.
Variable user : option User.t.

Lemma or_else_nonempty s dflt : dflt <> "" -> or_else s dflt <> "".
Proof.
  intros Hd. unfold or_else, truthy.
  destruct (s =? "") eqn:E; cbn; [exact Hd|]. now apply String.eqb_neq.
Qed.

Lemma mapSupabaseItem_named row : Item.userName (mapSupabaseItem row) <> "".
Proof.
  cbn. destruct (Row.name row) as [nm|]; cbn.
  - apply or_else_nonempty. discriminate.
  - discriminate.
Qed.

Lemma INITIAL_ITEMS_named : Forall (fun i => Item.userName i <> "") INITIAL_ITEMS.
Proof. repeat constructor; discriminate. Qed.

Lemma loadItems_named st : named st -> named (final (loadItems remote st)).
Proof.
  intros Hst. unfold named, loadItems, setLoading, setItems. run_ops.
  destruct (items_select remote) as [[rows|] [e|]|e]; cbn;
    try apply INITIAL_ITEMS_named; try exact Hst.
  apply Forall_map, Forall_forall. intros row _. apply mapSupabaseItem_named.
Qed.

(** A reload that fails or returns rows leaves only named items, whatever
    the list was. *)
Lemma loadItems_establishes_named st :
  is_failure (items_select remote) = true \/
  (exists rows, items_select remote = Resolved (Some rows) None) ->
  named (final (loadItems remote st)).
Proof.
  unfold named, loadItems, setLoading, setItems. run_ops.
  destruct (items_select remote) as [[rows|] [e|]|e]; cbn;
    try (intros _; apply INITIAL_ITEMS_named).
  - intros _. apply Forall_map, Forall_forall.
    intros row _. apply mapSupabaseItem_named.
  - intros [H|[rows H]]; discriminate H.
Qed.

(** No operation introduces an item without a reporter name. *)
Lemma perform_keeps_named op st :
  named st -> named (final (perform remote toISOString user op st)).
Proof.
  intros Hst. destruct op as [n|id status|id|dr ty]; cbn [perform].
  - unfold named, addItem, setLoading, setItems. run_ops.
    destruct user as [u|]; [|exact Hst].
    destruct (toISOString (NewItem.date n)) as [iso|]; [|exact Hst].
    destruct (items_insert remote (itemData u n iso)) as [[row|] [e|]|e];
      cbn; try exact Hst.
    constructor; [apply mapSupabaseItem_named|exact Hst].
  - unfold named, updateItemStatus, setLoading, setItems. run_ops.
    destruct (items_update remote status [Query.eq "id" id]) as [[] [e|]|e];
      cbn; try exact Hst.
    apply Forall_map. revert Hst. apply Forall_impl. intros i Hi.
    destruct (Item.id i =? id); exact Hi.
  - unfold named, deleteItem, setLoading, setItems. run_ops.
    destruct (items_delete remote [Query.eq "id" id]) as [[] [e|]|e];
      cbn; try exact Hst.
    apply Forall_forall. intros i Hi. apply filter_In in Hi.
    unfold named in Hst. rewrite Forall_forall in Hst. apply Hst, Hi.
  - pose proof (loadItems_named (mkState (items st) true) Hst) as Hload.
    revert Hload.
    unfold named, deleteItemsByFilter, loadItems, setLoading, setItems. run_ops.
    destruct (not_admin user); [intros _; exact Hst|].
    destruct (items_delete remote (delete_query dr ty)) as [[] [e|]|e];
      cbn; try (intros _; exact Hst).
    destruct (items_select remote) as [[rows|] [e|]|e]; cbn; auto.
Qed.

(** X20: Whatever the backend replies, [addItem], [updateItemStatus],
    [deleteItem] and [deleteItemsByFilter] complete normally (the promise
    never rejects), and afterwards [loading] is off, unless a guard
    returned at once and the state is exactly as before. *)
Theorem perform_never_throws op st :
  let r := perform remote toISOString user op st in
  completion r = Done tt /\
  (loading (final r) = false \/ final r = st).
Proof.
  cbn zeta. destruct op as [n|id status|id|dr ty]; cbn [perform].
  - unfold addItem, setLoading, setItems. run_ops.
    destruct user as [u|]; [|cbn; auto].
    destruct (toISOString (NewItem.date n)) as [iso|]; [|cbn; auto].
    destruct (items_insert remote (itemData u n iso)) as [[row|] [e|]|e];
      cbn; auto.
  - unfold updateItemStatus, setLoading, setItems. run_ops.
    destruct (items_update remote status [Query.eq "id" id]) as [[] [e|]|e];
      cbn; auto.
  - unfold deleteItem, setLoading, setItems. run_ops.
    destruct (items_delete remote [Query.eq "id" id]) as [[] [e|]|e];
      cbn; auto.
  - unfold deleteItemsByFilter, loadItems, setLoading, setItems. run_ops.
    destruct (not_admin user); [cbn; auto|].
    destruct (items_delete remote (delete_query dr ty)) as [[] [e|]|e];
      cbn; auto.
    destruct (items_select remote) as [[rows|] [e|]|e]; cbn; auto.
Qed.

(** X21: In every outcome of [updateItemStatus], the local list has the
    same items in the same order, each with every field other than
    [status] as before: ids and owners never change. *)
Theorem updateItemStatus_changes_status_only id status st :
  let r := updateItemStatus remote id status st in
  Forall2 same_except_status (items st) (items (final r)) /\
  map Item.id (items (final r)) = map Item.id (items st) /\
  map Item.userId (items (final r)) = map Item.userId (items st).
Proof.
  cbn zeta.
  assert (Hrefl : forall l, Forall2 same_except_status l l).
  { induction l; constructor; auto. unfold same_except_status. repeat split; reflexivity. }
  unfold updateItemStatus, setLoading, setItems. run_ops.
  destruct (items_update remote status [Query.eq "id" id]) as [[] [e|]|e];
    cbn; auto.
  induction (items st) as [|i l (IH1 & IH2 & IH3)]; cbn; [auto|].
  split; [|split].
  - constructor; [|exact IH1].
    destruct (Item.id i =? id); [apply with_status_frame|].
    unfold same_except_status. repeat split; reflexivity.
  - rewrite IH2. now destruct (Item.id i =? id).
  - rewrite IH3. now destruct (Item.id i =? id).
Qed.

(** X22: In every outcome of [addItem] the local list is either unchanged
    or the old list with one item in front, the item of the row that a
    successful insert returned, and then the success toast was shown. *)
Theorem addItem_only_prepends n st :
  let r := addItem remote toISOString user n st in
  items (final r) = items st \/
  (exists row,
      items (final r) = mapSupabaseItem row :: items st /\
      In (Toast ToastSuccess "Item added successfully") (trace r) /\
      exists d, In (Call (ItemsInsert d) false) (trace r) /\
                items_insert remote d = Resolved (Some row) None).
Proof.
  cbn zeta. unfold addItem, setLoading, setItems. run_ops.
  destruct user as [u|]; [|cbn; auto].
  destruct (toISOString (NewItem.date n)) as [iso|]; [|cbn; auto].
  destruct (items_insert remote (itemData u n iso)) as [[row|] [e|]|e] eqn:E;
    cbn; auto.
  right. exists row. split; [reflexivity|]. split; [auto|].
  exists (itemData u n iso). auto.
Qed.

(** X23: Without a logged-in user, or with a date that [toISOString]
    rejects, [addItem] sends no request, leaves the list as it is, shows
    an error toast, and does not throw. *)
Theorem addItem_without_request n st :
  user = None \/ toISOString (NewItem.date n) = None ->
  let r := addItem remote toISOString user n st in
  existsb is_remote_call (trace r) = false /\
  items (final r) = items st /\
  existsb is_error_toast (trace r) = true /\
  completion r = Done tt.
Proof.
  intros H. cbn zeta. unfold addItem, setLoading, setItems. run_ops.
  destruct user as [u|]; [|cbn; auto].
  destruct H as [H|H]; [discriminate H|]. rewrite H. cbn. auto.
Qed.

(** Unless the fetch resolves with neither data nor error, the list after
    [loadItems] does not depend on the list before it. *)
Lemma loadItems_replaces st1 st2 :
  items_select remote <> Resolved None None ->
  items (final (loadItems remote st1)) = items (final (loadItems remote st2)).
Proof.
  unfold loadItems, setLoading, setItems. run_ops.
  destruct (items_select remote) as [[rows|] [e|]|e]; cbn; congruence.
Qed.

(** X24: When the fetch of [loadItems] resolves with neither error nor
    data, the local list stays as it was, nothing is shown (the only event
    is the request), and [loading] is off. *)
Theorem loadItems_without_data st :
  items_select remote = Resolved None None ->
  let r := loadItems remote st in
  items (final r) = items st /\
  trace r = [Call ItemsSelect false] /\
  loading (final r) = false.
Proof.
  intros H. cbn zeta. unfold loadItems, setLoading, setItems. run_ops.
  rewrite H. cbn. auto.
Qed.

(** The date [addItem] sends is the part of the ISO timestamp before its
    first [T]; owner, type and status are passed on. *)
Lemma itemData_date_is_day u n iso :
  let d := ItemData.date (itemData u n iso) in
  (forall a, In a (list_ascii_of_string d) -> a <> "T"%char) /\
  (d = iso \/ exists rest, iso = (d ++ String "T" rest)%string) /\
  ItemData.user_id (itemData u n iso) = User.id u /\
  ItemData.type (itemData u n iso) = NewItem.type n /\
  ItemData.status (itemData u n iso) = NewItem.status n.
Proof.
  cbn. destruct (split_head_spec "T" iso) as [H1 H2]. auto.
Qed.

End Invariants.

(** * The item cache over time *)

(** X25: After any history of reloads and operations, by any users against
    any backends, starting from the freshly mounted provider, every item
    of the cache has a non-empty [userName]. *)
Theorem reachable_named (history : list Action) :
  named (fold_left act history mounted).
Proof.
  assert (H : forall st, named st -> named (fold_left act history st)).
  { induction history as [|a history IH]; intros st Hst; cbn; [exact Hst|].
    apply IH. destruct a as [remote|remote toISOString user op]; cbn.
    - now apply loadItems_named.
    - now apply perform_keeps_named. }
  apply H. constructor.
Qed.

(** * The session manager: every outcome of [register] *)

Section RegisterOutcomes.
Variable remote : Remote.
Variables name email password : string.
Variable adminCode : option string.

(** X2: In every outcome of [register], with or without admin code, the
    provider's [user] and [session] are as before, [loading] is off, and
    both storages are cleaned. *)
Theorem register_keeps_identity st :
  let r := AuthContext.register remote name email password adminCode st in
  AuthContext.user (final r) = AuthContext.user st /\
  AuthContext.session (final r) = AuthContext.session st /\
  AuthContext.loading (final r) = false /\
  AuthContext.localStorage (final r)
    = filter not_auth_entry (AuthContext.localStorage st) /\
  AuthContext.sessionStorage (final r)
    = filter not_auth_entry (AuthContext.sessionStorage st).
Proof.
  cbn zeta.
  pose proof (cleanupAuthState_filters
                (AuthContext.mkState (AuthContext.user st) (AuthContext.session st)
                   true (AuthContext.localStorage st)
                   (AuthContext.sessionStorage st))) as Hc.
  revert Hc.
  unfold AuthContext.register, AuthContext.setLoading. run_ops.
  intros ->. unfold final.
  destruct adminCode as [code|];
    [destruct (truthy code); [destruct (code =? AuthContext.ADMIN_CODE)|]|];
    repeat (break_match; cbn); cbn; auto.
Qed.

(** X3: [register] either completes normally or throws an error [e] after
    logging it and showing it in an error toast ([e.message], or [Failed
    to register] if that is empty), as the last two events. *)
Theorem register_failure_is_shown st :
  let r := AuthContext.register remote name email password adminCode st in
  completion r = Done tt \/
  exists e,
    completion r = Thrown e /\
    exists before,
      trace r = before ++ [ConsoleError "Registration error:";
                           Toast ToastError (or_else (message e) "Failed to register")].
Proof.
  cbn zeta.
  unfold AuthContext.register, AuthContext.setLoading,
    AuthContext.cleanupAuthState. run_ops. unfold completion, trace.
  destruct adminCode as [code|];
    [destruct (truthy code); [destruct (code =? AuthContext.ADMIN_CODE)|]|];
    repeat (break_match; cbn); cbn; auto;
    right; eexists; (split; [reflexivity|]).
  all: try (eexists [_]; reflexivity).
  all: try (eexists [_; _]; reflexivity).
  all: try (eexists [_; _; _]; reflexivity).
Qed.

(** X4: When the profile insert of [register] failed, the sign-up before
    it had succeeded with the same role (the account exists), and either
    the error was in the reply and [register] completes normally after
    both the toast [Account created but profile setup failed] and the
    success toast, or the promise was rejected and [register] throws that
    error. *)
Theorem register_profile_failure st id role nm :
  let r := AuthContext.register remote name email password adminCode st in
  In (Call (ProfilesInsert id role nm) true) (trace r) ->
  In (Call (AuthSignUp email password name role) false) (trace r) /\
  ((completion r = Done tt /\
    In (Toast ToastError "Account created but profile setup failed") (trace r) /\
    exists msg, In (Toast ToastSuccess msg) (trace r)) \/
   (exists e, completion r = Thrown e /\
              profiles_insert remote id role nm = Rejected e)).
Proof.
  cbn zeta.
  unfold AuthContext.register, AuthContext.setLoading,
    AuthContext.cleanupAuthState. run_ops. unfold completion, trace.
  destruct adminCode as [code|];
    [destruct (truthy code); [destruct (code =? AuthContext.ADMIN_CODE)|]|];
    repeat (break_match; cbn); cbn;
    intros H; repeat (destruct H as [H|H]; try discriminate H);
    try contradiction;
    injection H as <- <- <-; (split; [auto 6|]);
    try (left; split; [reflexivity|split; [auto 8|eexists; auto 10]]);
    try (right; eexists; split; [reflexivity|assumption]).
Qed.

(** X5: [register] sends a request carrying the role [admin] only when
    [adminCode] is the fixed secret. *)
Theorem register_admin_only_with_secret st :
  let r := AuthContext.register remote name email password adminCode st in
  existsb grants_admin (trace r) = true ->
  adminCode = Some "79041167197200060295".
Proof.
  cbn zeta.
  unfold AuthContext.register, AuthContext.setLoading,
    AuthContext.cleanupAuthState. run_ops. unfold trace.
  destruct adminCode as [code|];
    [destruct (truthy code);
     [destruct (code =? AuthContext.ADMIN_CODE) eqn:E;
      [apply String.eqb_eq in E; subst code; reflexivity|]|]|];
    repeat (break_match; cbn); cbn; discriminate.
Qed.

(** A profile insert is sent only after a sign-up that succeeded for that
    account, with the same role and the given name. *)
Lemma register_profile_follows_signUp st id role nm failed :
  let r := AuthContext.register remote name email password adminCode st in
  In (Call (ProfilesInsert id role nm) failed) (trace r) ->
  nm = name /\
  In (Call (AuthSignUp email password name role) false) (trace r) /\
  exists sess,
    auth_signUp remote email password name role
    = Resolved (mkSignUpData (Some (mkAuthUser id)) sess) None.
Proof.
  cbn zeta.
  unfold AuthContext.register, AuthContext.setLoading,
    AuthContext.cleanupAuthState. run_ops. unfold trace.
  destruct adminCode as [code|];
    [destruct (truthy code); [destruct (code =? AuthContext.ADMIN_CODE)|]|];
    repeat (break_match; cbn); cbn;
    intros H; repeat (destruct H as [H|H]; try discriminate H);
    try contradiction;
    injection H as <- <- <- <-; (split; [reflexivity|]); (split; [auto 6|]);
    match goal with
    | a : AuthUser, d : SignUpData |- _ =>
        destruct a, d; cbn in *; subst; eexists; eassumption
    end.
Qed.

End RegisterOutcomes.

(** * The registration page *)

Section RegisterPageFacts.
Variable remote : Remote.
Variables name email password confirmPassword adminCode : string.
Variable isAdmin : bool.

(** Once the two checks pass, submitting is [register], with a thrown
    error logged instead of propagated. *)
Lemma handleSubmit_submits st :
  password = confirmPassword -> 6 <= String.length password ->
  RegisterPage.handleSubmit remote name email password confirmPassword
    adminCode isAdmin st =
  let r := AuthContext.register remote name email password
             (if isAdmin then Some adminCode else None) st in
  match completion r with
  | Thrown e => (Done tt, final r, trace r ++ [ConsoleError "Registration error:"])
  | _ => (Done tt, final r, trace r)
  end.
Proof.
  intros Hpw Hlen. unfold RegisterPage.handleSubmit.
  rewrite <- Hpw, String.eqb_refl.
  apply PeanoNat.Nat.ltb_ge in Hlen.
  change (Init.Nat.ltb (String.length password) 6 = false) in Hlen.
  rewrite Hlen. run_ops. cbn.
  destruct (AuthContext.register remote name email password
              (if isAdmin then Some adminCode else None) st) as [[[[]| |e] s] t];
    cbn; rewrite ?app_nil_r; reflexivity.
Qed.

Lemma handleSubmit_rejects st :
  password <> confirmPassword \/ String.length password < 6 ->
  RegisterPage.handleSubmit remote name email password confirmPassword
    adminCode isAdmin st =
  (Done tt, st,
   [Toast ToastError (if password =? confirmPassword
                      then "Password must be at least 6 characters"
                      else "Passwords do not match")]).
Proof.
  intros H. unfold RegisterPage.handleSubmit. destruct H as [H|H].
  - apply String.eqb_neq in H. rewrite H. reflexivity.
  - apply PeanoNat.Nat.ltb_lt in H.
    change (Init.Nat.ltb (String.length password) 6 = true) in H.
    rewrite H. destruct (password =? confirmPassword); reflexivity.
Qed.

Lemma checks_decide :
  (password = confirmPassword /\ 6 <= String.length password) \/
  (password <> confirmPassword \/ String.length password < 6).
Proof.
  destruct (String.eqb_spec password confirmPassword) as [E|E]; [|auto].
  destruct (PeanoNat.Nat.le_gt_cases 6 (String.length password)); auto.
Qed.

(** X13: [handleSubmit] of the registration page never throws: a
    registration error is logged, not propagated. *)
Theorem handleSubmit_never_throws st :
  completion (RegisterPage.handleSubmit remote name email password
                confirmPassword adminCode isAdmin st) = Done tt.
Proof.
  destruct checks_decide as [[Hpw Hlen]|Hbad].
  - rewrite (handleSubmit_submits st Hpw Hlen). cbn zeta.
    destruct (completion (AuthContext.register _ _ _ _ _ _)); reflexivity.
  - rewrite (handleSubmit_rejects st Hbad). reflexivity.
Qed.

(** X14: When the two passwords differ or the password has fewer than six
    characters, [handleSubmit] sends no request and leaves the provider
    untouched; its only effect is one error toast, [Passwords do not
    match] if they differ (whatever the length), otherwise [Password must
    be at least 6 characters]. *)
Theorem handleSubmit_invalid_password st :
  password <> confirmPassword \/ String.length password < 6 ->
  let r := RegisterPage.handleSubmit remote name email password
             confirmPassword adminCode isAdmin st in
  final r = st /\
  existsb is_remote_call (trace r) = false /\
  (password <> confirmPassword ->
   trace r = [Toast ToastError "Passwords do not match"]) /\
  (password = confirmPassword ->
   trace r = [Toast ToastError "Password must be at least 6 characters"]).
Proof.
  intros H. cbn zeta. rewrite (handleSubmit_rejects st H). cbn.
  split; [reflexivity|]. split; [reflexivity|]. split; intros E.
  - apply String.eqb_neq in E. now rewrite E.
  - apply String.eqb_eq in E. now rewrite E.
Qed.

Lemma register_signUp_args code st e p n role failed :
  In (Call (AuthSignUp e p n role) failed)
     (trace (AuthContext.register remote name email password code st)) ->
  e = email /\ p = password /\ n = name.
Proof.
  unfold AuthContext.register, AuthContext.setLoading,
    AuthContext.cleanupAuthState. run_ops. unfold trace.
  destruct code as [code|];
    [destruct (truthy code); [destruct (code =? AuthContext.ADMIN_CODE)|]|];
    repeat (break_match; cbn); cbn;
    intros H; repeat (destruct H as [H|H]; try discriminate H);
    try contradiction; injection H as <- <- <- <- <-; auto.
Qed.

(** X15: Every sign-up request that [handleSubmit] sends carries the typed
    name and email and a password equal to its confirmation and at least
    six characters long. *)
Theorem handleSubmit_signUp_password st e p n role failed :
  In (Call (AuthSignUp e p n role) failed)
     (trace (RegisterPage.handleSubmit remote name email password
               confirmPassword adminCode isAdmin st)) ->
  p = password /\ p = confirmPassword /\ 6 <= String.length p /\
  e = email /\ n = name.
Proof.
  destruct checks_decide as [[Hpw Hlen]|Hbad].
  - rewrite (handleSubmit_submits st Hpw Hlen). cbn zeta. intros H.
    assert (H' : In (Call (AuthSignUp e p n role) failed)
                    (trace (AuthContext.register remote name email password
                              (if isAdmin then Some adminCode else None) st))).
    { destruct (completion (AuthContext.register _ _ _ _ _ _));
        cbn in H; try exact H.
      apply in_app_or in H. destruct H as [H|[H|[]]]; [exact H|discriminate H]. }
    apply register_signUp_args in H'. destruct H' as (-> & -> & ->).
    rewrite <- Hpw. auto.
  - rewrite (handleSubmit_rejects st Hbad). cbn.
    intros [H|[]]. discriminate H.
Qed.

End RegisterPageFacts.

Lemma register_plain_never_admin remote name email password st :
  existsb grants_admin
    (trace (AuthContext.register remote name email password None st)) = false.
Proof.
  unfold AuthContext.register, AuthContext.setLoading,
    AuthContext.cleanupAuthState. run_ops. unfold trace.
  repeat (break_match; cbn); reflexivity.
Qed.

(** X16: With [Register as admin] unchecked, [handleSubmit] ignores the
    admin code field: the run is the one with the field empty, and no
    request carries the role [admin], even if the field holds the secret. *)
Theorem handleSubmit_unchecked_ignores_code
        remote name email password confirmPassword adminCode st :
  let r := RegisterPage.handleSubmit remote name email password
             confirmPassword adminCode false st in
  existsb grants_admin (trace r) = false /\
  r = RegisterPage.handleSubmit remote name email password
        confirmPassword "" false st.
Proof.
  cbn zeta. split; [|reflexivity].
  destruct (checks_decide password confirmPassword) as [[Hpw Hlen]|Hbad].
  - rewrite (handleSubmit_submits remote name email password confirmPassword
               adminCode false st Hpw Hlen). cbn zeta.
    pose proof (register_plain_never_admin remote name email password st) as Hno.
    destruct (completion (AuthContext.register _ _ _ _ _ _)); cbn;
      try exact Hno.
    rewrite existsb_app. cbn in Hno. rewrite Hno. reflexivity.
  - rewrite (handleSubmit_rejects remote name email password confirmPassword
               adminCode false st Hbad).
    destruct (password =? confirmPassword); reflexivity.
Qed.

(** * The session manager: signing in and out *)

(** Unfold the combinators of both monads. *)
Ltac wide_ops :=
  unfold Wide.async_function, Wide.try_finally, Wide.try_catch, Wide.bind,
         Wide.await, Wide.throw_if, Wide.toast_error, Wide.toast_success,
         Wide.toast_info, Wide.console_error, Wide.console_log,
         Wide.console_warn, Wide.emit, Wide.modify, Wide.get, Wide.throw,
         Wide.return_, Wide.ret, Wide.zoom, lift;
  run_ops.

(** Case analysis on the next reply, option or test the run inspects. *)
Ltac break_wide :=
  match goal with
  | |- context [match ?x with _ => _ end] =>
      match type of x with
      | Reply _ => destruct x as [? [?|]|?] eqn:?
      | option _ => destruct x eqn:?
      | bool => destruct x eqn:?
      | unit => destruct x
      end
  end.

Section SigningIn.
Import AuthContext.
Variable remote : RemoteX.
Variable origin : string.

(** X6: In every outcome of [login], the provider's [user] and [session]
    are as before (only the auth-state listener sets them), [loading] is
    off, and both storages are cleaned. *)
Theorem login_keeps_identity email password st :
  let r := AuthProvider.login remote email password st in
  user (wfinal r) = user st /\
  session (wfinal r) = session st /\
  loading (wfinal r) = false /\
  localStorage (wfinal r) = filter not_auth_entry (localStorage st) /\
  sessionStorage (wfinal r) = filter not_auth_entry (sessionStorage st).
Proof.
  cbn zeta.
  pose proof (cleanupAuthState_filters
                (mkState (user st) (session st) true (localStorage st)
                   (sessionStorage st))) as Hc.
  revert Hc.
  unfold AuthProvider.login, AuthProvider.try_signOut, setLoading. wide_ops.
  intros ->. unfold wfinal.
  repeat (break_wide; cbn); cbn; auto.
Qed.

(** X7: When the sign-in fails (an error in the reply, or a rejected
    promise), [login] throws that error, after the request, the console
    error and one error toast: the confirmation hint if the message
    contains [Email not confirmed], else the message, else [Failed to log
    in]. *)
Theorem login_failure_rethrown email password st :
  is_failure (auth_signInWithPassword remote email password) = true ->
  let r := AuthProvider.login remote email password st in
  exists e before,
    wcompletion r = Thrown e /\
    (auth_signInWithPassword remote email password = Rejected e \/
     exists d, auth_signInWithPassword remote email password
               = Resolved d (Some e)) /\
    wtrace r = before ++ [XCall (AuthSignInWithPassword email password) true;
                         Core (ConsoleError "Login error:");
                         Core (Toast ToastError (login_message e))].
Proof.
  intros Hf. cbn zeta.
  unfold AuthProvider.login, AuthProvider.try_signOut, setLoading,
    cleanupAuthState, login_message. wide_ops. unfold wcompletion, wtrace.
  destruct (auth_signInWithPassword remote email password) as [d [e|]|e];
    try discriminate Hf;
    destruct (auth_signOut (base remote)) as [[] [e'|]|e'];
    destruct (includes "Email not confirmed" (message e)) eqn:Hinc; cbn;
    exists e; eexists [_]; (split; [reflexivity|]);
    (split; [eauto|rewrite Hinc; reflexivity]).
Qed.

(** When the sign-in succeeds, [login] completes normally, after the sign-
    out attempt, the sign-in and the welcome toast. *)
Lemma login_success email password st :
  is_failure (auth_signInWithPassword remote email password) = false ->
  let r := AuthProvider.login remote email password st in
  wcompletion r = Done tt /\
  wtrace r = [Core (Call AuthSignOut (is_failure (auth_signOut (base remote))));
             XCall (AuthSignInWithPassword email password) false;
             Core (Toast ToastSuccess "Welcome back!")].
Proof.
  intros Hf. cbn zeta.
  unfold AuthProvider.login, AuthProvider.try_signOut, setLoading,
    cleanupAuthState. wide_ops. unfold wcompletion, wtrace.
  destruct (auth_signInWithPassword remote email password) as [d [e|]|e];
    try discriminate Hf;
    destruct (auth_signOut (base remote)) as [[] [e'|]|e']; cbn; auto.
Qed.

(** X8: [logout] never throws, ends with [loading] off and the local
    storage cleaned. When the sign-out resolves, even with an error in the
    reply, the user and the session are cleared and the info toast is
    shown; when it is rejected, the user and the session stay as they were
    and the error toast is shown. *)
Theorem logout_outcomes st :
  let r := AuthProvider.logout remote st in
  completion r = Done tt /\
  loading (final r) = false /\
  localStorage (final r) = filter not_auth_entry (localStorage st) /\
  match auth_signOut (base remote) with
  | Resolved _ _ =>
      user (final r) = None /\ session (final r) = None /\
      AuthProvider.isAuthenticated (final r) = false /\
      In (Toast ToastInfo "Logged out successfully") (trace r)
  | Rejected _ =>
      user (final r) = user st /\ session (final r) = session st /\
      In (Toast ToastError "Failed to log out") (trace r)
  end.
Proof.
  cbn zeta.
  pose proof (cleanupAuthState_filters
                (mkState (user st) (session st) true (localStorage st)
                   (sessionStorage st))) as Hc.
  revert Hc.
  unfold AuthProvider.logout, AuthProvider.setUser, AuthProvider.setSession,
    AuthProvider.isAuthenticated, setLoading. run_ops.
  intros ->. unfold final, completion, trace.
  destruct (auth_signOut (base remote)) as [[] [e'|]|e']; cbn; auto 10.
Qed.

(** X9: [loginWithGoogle] never throws and never sets the user; when the
    OAuth request fails it shows an error toast and turns [loading] off;
    when it succeeds it shows nothing and leaves [loading] on.
    [handleGoogleLogin] is the same run: its catch block is never reached. *)
Theorem loginWithGoogle_outcomes st :
  let r := AuthProvider.loginWithGoogle remote origin st in
  wcompletion r = Done tt /\
  user (wfinal r) = user st /\
  (if is_failure (auth_signInWithOAuth remote "google" (origin ++ "/")
                    [("access_type", "offline"); ("prompt", "consent")])
   then loading (wfinal r) = false /\
        exists msg, In (Core (Toast ToastError msg)) (wtrace r)
   else loading (wfinal r) = true /\
        forall level msg, ~ In (Core (Toast level msg)) (wtrace r)) /\
  RegisterPageGoogle.handleGoogleLogin remote origin st = r.
Proof.
  cbn zeta.
  unfold RegisterPageGoogle.handleGoogleLogin, AuthProvider.loginWithGoogle,
    AuthProvider.try_signOut, setLoading, cleanupAuthState. wide_ops.
  unfold wfinal, wcompletion, wtrace.
  destruct (auth_signInWithOAuth remote "google" (origin ++ "/")
              [("access_type", "offline"); ("prompt", "consent")])
    as [d [e|]|e];
    destruct (auth_signOut (base remote)) as [[] [e'|]|e']; cbn;
    repeat split; eauto 10;
    try (intros level msg H; repeat (destruct H as [H|H]; try discriminate H);
         exact H).
Qed.

End SigningIn.

(** * The session manager: following the provider *)

Lemma first_truthy_nonempty candidates dflt :
  dflt <> "" -> first_truthy candidates dflt <> "".
Proof.
  intros Hd. induction candidates as [|[s|] rest IH]; cbn; auto.
  unfold truthy. destruct (s =? "") eqn:E; cbn; [exact IH|].
  now apply String.eqb_neq.
Qed.

(** X11: The user built from a session and its profile row has the
    session's id and the profile's role; its name is never empty, is the
    session's metadata name when that is non-empty, else the profile's
    name when that is non-empty; its email is empty when the session has
    none. *)
Theorem userData_fields u p :
  let usr := AuthProvider.userData u p in
  User.id usr = SessionUser.id u /\
  User.role usr = Profile.role p /\
  User.name usr <> "" /\
  (forall n, SessionUser.user_metadata_name u = Some n -> n <> "" ->
             User.name usr = n) /\
  (SessionUser.user_metadata_name u = None \/
   SessionUser.user_metadata_name u = Some "" ->
   forall n, Profile.name p = Some n -> n <> "" -> User.name usr = n) /\
  (SessionUser.email u = None -> User.email usr = "").
Proof.
  cbn. split; [reflexivity|]. split; [reflexivity|]. split; [|split; [|split]].
  - destruct (SessionUser.user_metadata_name u) as [m|]; cbn;
      [destruct (truthy m) eqn:Em;
       [unfold truthy in Em; apply negb_true_iff, String.eqb_neq in Em; exact Em|]|];
      (destruct (Profile.name p) as [n|]; cbn;
       [destruct (truthy n) eqn:En;
        [unfold truthy in En; apply negb_true_iff, String.eqb_neq in En; exact En|]|]);
      (destruct (AuthProvider.email_local_part u) as [l|]; cbn;
       [destruct (truthy l) eqn:El;
        [unfold truthy in El; apply negb_true_iff, String.eqb_neq in El; exact El|]|]);
      discriminate.
  - intros n -> Hn. cbn. now rewrite (truthy_true _ Hn).
  - intros Hm n -> Hn. destruct Hm as [-> | ->]; cbn; now rewrite (truthy_true _ Hn).
  - intros ->. reflexivity.
Qed.

Section Following.
Import AuthContext.
Variable remote : RemoteX.

(** X10: An auth-state change never throws and never writes a profile; it
    stores the session; without a session it clears the user and sends no
    request; with a session it sets the user from the session and the
    profile row when the profile query returns one (even with an error
    beside it), and otherwise leaves the user as it was. *)
Theorem authStateChange_sets_user event currentSession st :
  let r := AuthProvider.authStateChange remote event currentSession st in
  wcompletion r = Done tt /\
  session (wfinal r) = option_map AuthProvider.to_session currentSession /\
  existsb is_profile_write (wtrace r) = false /\
  match currentSession with
  | None => user (wfinal r) = None /\ existsb is_xcall (wtrace r) = false
  | Some s =>
      let u := AuthSession.user s in
      match profiles_select remote [Query.eq "id" (SessionUser.id u)] with
      | Resolved (Some p) _ => user (wfinal r) = Some (AuthProvider.userData u p)
      | _ => user (wfinal r) = user st
      end
  end.
Proof.
  cbn zeta.
  unfold AuthProvider.authStateChange, AuthProvider.onAuthStateChange_callback,
    AuthProvider.fetch_profile, AuthProvider.setUser, AuthProvider.setSession.
  wide_ops. unfold wfinal, wcompletion, wtrace.
  destruct currentSession as [s|]; cbn; [|auto].
  destruct (profiles_select remote
              [Query.eq "id" (SessionUser.id (AuthSession.user s))])
    as [[p|] [e|]|e]; cbn; auto.
Qed.

(** X12: [initAuth] never throws and ends with [loading] off; a profile
    row it creates is for the user of the existing session and has the
    role [user]; the user it leaves is the previous one, or the one built
    from the session and its profile row, or, after a successful profile
    creation, the default one with role [user]. *)
Theorem initAuth_outcomes st :
  let r := AuthProvider.initAuth remote st in
  wcompletion r = Done tt /\
  loading (wfinal r) = false /\
  (forall id role failed,
      In (XCall (ProfilesInsertDefault id role) failed) (wtrace r) ->
      role = RoleUser /\
      exists s e, auth_getSession remote = Resolved (Some s) e /\
                  id = SessionUser.id (AuthSession.user s)) /\
  (user (wfinal r) = user st \/
   exists s e, auth_getSession remote = Resolved (Some s) e /\
     let u := AuthSession.user s in
     ((exists p, user (wfinal r) = Some (AuthProvider.userData u p) /\
                 exists e', profiles_select remote [Query.eq "id" (SessionUser.id u)]
                            = Resolved (Some p) e') \/
      (user (wfinal r) = Some (AuthProvider.userData_default u) /\
       is_failure (profiles_insert_default remote (SessionUser.id u) RoleUser)
       = false))).
Proof.
  cbn zeta.
  unfold AuthProvider.initAuth, AuthProvider.setUser, AuthProvider.setSession,
    setLoading.
  wide_ops. unfold wfinal, wcompletion, wtrace.
  destruct (auth_getSession remote) as [[s|] eg|eg]; cbn;
    [ destruct (profiles_select remote
                  [Query.eq "id" (SessionUser.id (AuthSession.user s))])
        as [[p|] es|es] eqn:Es; cbn;
      [ | destruct (profiles_insert_default remote
                      (SessionUser.id (AuthSession.user s)) RoleUser)
            as [[] [ei|]|ei] eqn:Ei; cbn | ] | | ];
    (split; [reflexivity|]); (split; [reflexivity|]);
    (split;
     [ intros id role failed H;
       repeat (destruct H as [H|H]; try discriminate H); try contradiction;
       injection H as <- <- <-; (split; [reflexivity|eauto])
     | ]);
    try (left; reflexivity).
  - right. exists s, eg. split; [reflexivity|]. left. exists p.
    split; [reflexivity|exists es; exact Es].
  - right. exists s, eg. split; [reflexivity|]. right.
    split; [reflexivity|]. now rewrite Ei.
Qed.

End Following.

(** * The item cache: the admin clean-up *)

Section CleanUp.
Import DataContext.
Variable remote : RemoteX.
Variable thirtyDaysAgo : string.

(** X26: With no user, a user with an empty id, or a user who is not an
    admin, the clean-up and the effect that starts it do nothing: no
    request, no event, the state unchanged. *)
Theorem cleanup_only_for_admin user st :
  (user = None \/ exists u, user = Some u /\
                            (User.id u = "" \/ User.role u <> RoleAdmin)) ->
  DataProvider.cleanup remote thirtyDaysAgo user st = (Done tt, st, []) /\
  DataProvider.cleanup_effect remote thirtyDaysAgo user st = (Done tt, st, []).
Proof.
  unfold DataProvider.cleanup_effect, DataProvider.cleanup. wide_ops.
  intros [->|[[id nm em role cr] [-> [Hid|Hrole]]]]; cbn in *;
    [split; reflexivity| |].
  - subst id. destruct role; split; reflexivity.
  - destruct role; [|congruence].
    destruct (truthy id); split; reflexivity.
Qed.

(** X27: For an admin with a non-empty id, the clean-up never throws and
    first sends the deletion of the items created before [thirtyDaysAgo];
    when that resolves, even with an error in the reply, it continues with
    exactly the run of [loadItems]; when it is rejected, it logs the error
    and does not reload. *)
Theorem cleanup_by_admin u st :
  User.id u <> "" -> User.role u = RoleAdmin ->
  let r := DataProvider.cleanup remote thirtyDaysAgo (Some u) st in
  wcompletion r = Done tt /\
  DataProvider.cleanup_effect remote thirtyDaysAgo (Some u) st = r /\
  match items_delete_lt remote "created_at" thirtyDaysAgo with
  | Resolved _ error =>
      wfinal r = final (loadItems (base remote) st) /\
      wtrace r = XCall (ItemsDeleteLt "created_at" thirtyDaysAgo)
                   (match error with Some _ => true | None => false end)
                 :: map Core (trace (loadItems (base remote) st))
  | Rejected _ =>
      wfinal r = st /\
      wtrace r = [XCall (ItemsDeleteLt "created_at" thirtyDaysAgo) true;
                  Core (ConsoleError "Auto cleanup error:")]
  end.
Proof.
  intros Hid Hrole. cbn zeta.
  pose proof (truthy_true _ Hid) as Ht.
  destruct u as [id nm em role cr]. cbn in Hrole, Ht. subst role.
  unfold DataProvider.cleanup_effect, DataProvider.cleanup. wide_ops.
  cbn [User.id User.role UserRole_eqb]. rewrite Ht.
  unfold wfinal, wcompletion, wtrace, final, trace.
  pose proof (loadItems_completes (base remote) st) as [Hc _].
  unfold completion in Hc.
  destruct (items_delete_lt remote "created_at" thirtyDaysAgo) as [[] [e|]|e];
    cbn; [| |auto];
    destruct (loadItems (base remote) st) as [[c s] t]; cbn in *; subst c;
    auto.
Qed.

End CleanUp.

(** * The item form *)

Section ItemForm.
Import NewItemForm.
Variable remote : RemoteX.
Variable toISOString : string -> option string.
Variables now_ms now_iso : string.
Variable user : option User.t.

Ltac form_ops :=
  unfold onSubmit, setIsLoading, setFile, form_reset, set_cache,
    DataContext.addItem, DataContext.setLoading, DataContext.setItems;
  wide_ops.

(** [onSubmit] never throws and ends with [isLoading] off. *)
Lemma onSubmit_never_throws v st :
  let r := onSubmit remote toISOString now_ms now_iso user v st in
  wcompletion r = Done tt /\ isLoading (wfinal r) = false.
Proof.
  cbn zeta. form_ops. unfold wcompletion, wfinal.
  repeat (break_wide; cbn); auto.
Qed.

(** X28: [onSubmit] does not depend on the description: two submissions
    that differ only in it run identically, so the text is never sent. *)
Theorem onSubmit_ignores_description v d st :
  onSubmit remote toISOString now_ms now_iso user (with_description d v) st
  = onSubmit remote toISOString now_ms now_iso user v st.
Proof. destruct v. reflexivity. Qed.

(** X29: When [addItem] failed inside [onSubmit] (insert failed, or no
    user), [onSubmit] still shows [Item reported successfully!], resets
    the form and the file, and the cache holds the items it held. *)
Theorem onSubmit_success_toast_after_failed_add v st :
  let r := onSubmit remote toISOString now_ms now_iso user v st in
  In (Core (Toast ToastError "Failed to add item")) (wtrace r) \/
  In (Core (Toast ToastError "You must be logged in to add an item")) (wtrace r) ->
  In (Core (Toast ToastSuccess "Item reported successfully!")) (wtrace r) /\
  values (wfinal r) = defaultValues /\
  file (wfinal r) = None /\
  DataContext.items (cache (wfinal r)) = DataContext.items (cache st).
Proof.
  cbn zeta. form_ops. unfold wtrace, wfinal.
  repeat (break_wide; cbn);
    intros [H|H];
    repeat (destruct H as [H|H]; try discriminate H); try contradiction;
    (split; [auto 12|auto]).
Qed.

(** What the schema guarantees of accepted values. *)
Lemma formSchema_accepts v :
  formSchema v = true ->
  2 <= String.length (name v) /\
  10 <= String.length (description v) /\
  5 <= String.length (location v) /\
  10 <= String.length (contactInfo v) /\
  forall c, In c (list_ascii_of_string (contactInfo v)) -> is_digit c = true.
Proof.
  unfold formSchema, only_digits. rewrite !andb_true_iff.
  intros [[[[H1 H2] H3] H4] H5].
  apply PeanoNat.Nat.leb_le in H1, H2, H3, H4.
  repeat (split; [assumption|]).
  destruct (list_ascii_of_string (contactInfo v)) as [|c cs]; [discriminate|].
  now apply forallb_forall.
Qed.

(** X30: Every insert that a submission of the form sends carries the
    form's item name (at least 2 characters), location (at least 5) and
    phone number (at least 10 characters, all digits), the chosen type,
    the status [lost] or [found] as the report type says, a non-empty
    reporter name, and the id of the logged-in user. *)
Theorem handleSubmit_payload st d failed :
  In (Core (Call (ItemsInsert d) failed))
     (wtrace (handleSubmit remote toISOString now_ms now_iso user st)) ->
  let v := values st in
  ItemData.product_name d = name v /\ 2 <= String.length (name v) /\
  ItemData.place d = location v /\ 5 <= String.length (location v) /\
  ItemData.phone_number d = contactInfo v /\
  10 <= String.length (contactInfo v) /\
  (forall c, In c (list_ascii_of_string (contactInfo v)) -> is_digit c = true) /\
  ItemData.type d = itemType v /\
  ItemData.status d = match type v with ReportLost => Lost | ReportFound => Found end /\
  ItemData.name d <> "" /\
  exists u, user = Some u /\ ItemData.user_id d = User.id u.
Proof.
  cbn zeta. unfold handleSubmit. wide_ops.
  destruct (formSchema (values st)) eqn:Hv; [|intros []].
  apply formSchema_accepts in Hv. destruct Hv as (H1 & _ & H3 & H4 & H5).
  assert (Hname : forall u, or_else (User.name u) "Anonymous" <> "")
    by (intros u; apply or_else_nonempty; discriminate).
  revert Hname. unfold newItemData.
  form_ops. unfold wtrace.
  repeat (break_wide; cbn);
    intros Hname H;
    repeat (destruct H as [H|H]; try discriminate H); try contradiction;
    injection H as <- <-; cbn;
    (repeat (split; [first [reflexivity|assumption|apply Hname]|]));
    eexists; split; reflexivity.
Qed.

End ItemForm.

(** * More scenarios, run *)

Example logout_run :
  AuthProvider.logout ScenarioX.online ScenarioX.signed_in
  = (Done tt,
     AuthContext.mkState None None false [("theme", "dark")] [],
     [Call AuthSignOut false; Toast ToastInfo "Logged out successfully"]).
Proof. reflexivity. Qed.

Example login_unconfirmed_run :
  AuthProvider.login ScenarioX.unconfirmed "ann@sec.edu" "s3cret!"
    Scenario.signed_out
  = (Thrown (mkErr "Email not confirmed"),
     AuthContext.mkState None None false [("theme", "dark")] [],
     [Core (Call AuthSignOut true);
      XCall (AuthSignInWithPassword "ann@sec.edu" "s3cret!") true;
      Core (ConsoleError "Login error:");
      Core (Toast ToastError "Please check your email and confirm your account")]).
Proof. reflexivity. Qed.

Example initAuth_fresh_account_run :
  AuthProvider.initAuth ScenarioX.fresh_account Scenario.signed_out
  = (Done tt,
     AuthContext.mkState
       (Some (User.mk "u-1" "ann" "ann@sec.edu" RoleUser "2024-01-01T00:00:00Z"))
       (Some (mkSession (mkAuthUser "u-1"))) false
       [("theme", "dark"); ("sb-project-auth-token", "stale")] [],
     [XCall AuthOnAuthStateChange false;
      XCall AuthGetSession false;
      ConsoleLog "Found existing session for user:";
      XCall (ProfilesSelect [Query.eq "id" "u-1"]) true;
      ConsoleWarn "No profile found for user, trying to create one:";
      XCall (ProfilesInsertDefault "u-1" RoleUser) false;
      ConsoleLog "Created profile and setting user data:"]).
Proof. reflexivity. Qed.

Example onSubmit_run :
  wtrace (NewItemForm.onSubmit ScenarioX.online Scenario.toISOString
            "1706864400000" "2024-02-02T09:00:00.000Z" (Some Scenario.ann)
            ScenarioX.keys_form ScenarioX.form)
  = [XCall StorageListBuckets false;
     XCall (StorageUpload "items" "1706864400000_keys.png" (mkFile "keys.png")) false;
     Core (Call (ItemsInsert
                   (ItemData.mk "u-1" "Ann" "9876543210" "Keys"
                      (Some "https://cdn.example/items/1706864400000_keys.png")
                      "canteen" "2024-02-02" Emergency Found)) false);
     Core (Toast ToastSuccess "Item added successfully");
     Core (Toast ToastSuccess "Item reported successfully!")].
Proof. reflexivity. Qed.

Lemma register_profile_failure_witness :
  In (Toast ToastError "Account created but profile setup failed")
     (trace (AuthContext.register no_profiles "Ann" "ann@sec.edu" "s3cret!"
               None Scenario.signed_out)).
Proof.
  assert (H : In (Call (ProfilesInsert "u-2" RoleUser "Ann") true)
                 (trace (AuthContext.register no_profiles "Ann" "ann@sec.edu"
                           "s3cret!" None Scenario.signed_out)))
    by (vm_compute; auto 10).
  destruct (register_profile_failure no_profiles "Ann" "ann@sec.edu" "s3cret!"
              None Scenario.signed_out "u-2" RoleUser "Ann" H)
    as [_ [(_ & Htoast & _)|(e & Hthrown & _)]].
  - exact Htoast.
  - discriminate Hthrown.
Defined.

Lemma register_admin_only_with_secret_witness :
  existsb grants_admin
    (trace (AuthContext.register Scenario.online "Ann" "ann@sec.edu" "s3cret!"
              (Some "79041167197200060295") Scenario.signed_out)) = true /\
  Some "79041167197200060295" = Some "79041167197200060295".
Proof.
  split; [reflexivity|].
  exact (register_admin_only_with_secret Scenario.online "Ann" "ann@sec.edu"
           "s3cret!" (Some "79041167197200060295") Scenario.signed_out eq_refl).
Defined.

Lemma login_failure_rethrown_witness :
  exists e before,
    wcompletion (AuthProvider.login ScenarioX.unconfirmed "ann@sec.edu" "s3cret!"
                   Scenario.signed_out) = Thrown e /\
    (auth_signInWithPassword ScenarioX.unconfirmed "ann@sec.edu" "s3cret!"
       = Rejected e \/
     exists d, auth_signInWithPassword ScenarioX.unconfirmed "ann@sec.edu" "s3cret!"
               = Resolved d (Some e)) /\
    wtrace (AuthProvider.login ScenarioX.unconfirmed "ann@sec.edu" "s3cret!"
              Scenario.signed_out)
    = before ++ [XCall (AuthSignInWithPassword "ann@sec.edu" "s3cret!") true;
                 Core (ConsoleError "Login error:");
                 Core (Toast ToastError (login_message e))].
Proof.
  exact (login_failure_rethrown ScenarioX.unconfirmed "ann@sec.edu" "s3cret!"
           Scenario.signed_out eq_refl).
Defined.

Lemma handleSubmit_invalid_password_witness :
  final (RegisterPage.handleSubmit Scenario.online "Ann" "ann@sec.edu" "s3cret!"
           "s3cret?" "" false Scenario.signed_out)
  = Scenario.signed_out.
Proof.
  refine (proj1 (handleSubmit_invalid_password Scenario.online "Ann"
                   "ann@sec.edu" "s3cret!" "s3cret?" "" false
                   Scenario.signed_out _)).
  left. apply String.eqb_neq. reflexivity.
Defined.

Lemma handleSubmit_signUp_password_witness :
  "s3cret!" = "s3cret!" /\ 6 <= String.length "s3cret!".
Proof.
  assert (H : In (Call (AuthSignUp "ann@sec.edu" "s3cret!" "Ann" RoleUser) false)
                 (trace (RegisterPage.handleSubmit Scenario.online "Ann"
                           "ann@sec.edu" "s3cret!" "s3cret!" "" false
                           Scenario.signed_out)))
    by (vm_compute; auto 10).
  destruct (handleSubmit_signUp_password Scenario.online "Ann" "ann@sec.edu"
              "s3cret!" "s3cret!" "" false Scenario.signed_out
              "ann@sec.edu" "s3cret!" "Ann" RoleUser false H)
    as (_ & Hc & Hl & _).
  split; [exact Hc|exact Hl].
Defined.

Lemma deleteItem_removes_by_id_witness :
  DataContext.getItemById
    (final (DataContext.deleteItem Scenario.online "item2" Scenario.cache))
    "item2" = None.
Proof.
  exact (proj1 (proj2 (proj2
    (deleteItem_removes_by_id Scenario.online "item2" Scenario.cache eq_refl)))).
Defined.

Lemma updateItemStatus_then_lookup_witness :
  DataContext.getItemById
    (final (DataContext.updateItemStatus Scenario.online "item1" Found
              Scenario.cache)) "item1"
  = option_map (Item.with_status Found)
      (DataContext.getItemById Scenario.cache "item1").
Proof.
  exact (proj1 (updateItemStatus_then_lookup Scenario.online "item1" Found
                  Scenario.cache eq_refl)).
Defined.

Lemma addItem_then_lookup_witness :
  DataContext.getItemById
    (final (DataContext.addItem Scenario.online Scenario.toISOString
              (Some Scenario.ann) Scenario.keys_report Scenario.cache))
    "item8"
  = Some (DataContext.mapSupabaseItem
            (Scenario.stored "item8" "2024-02-02T09:00:00Z"
               (DataContext.itemData Scenario.ann Scenario.keys_report
                  "2024-02-02T09:00:00Z"))).
Proof.
  exact (proj1 (addItem_then_lookup Scenario.online Scenario.toISOString
                  Scenario.ann Scenario.keys_report "2024-02-02T09:00:00Z"
                  (Scenario.stored "item8" "2024-02-02T09:00:00Z"
                     (DataContext.itemData Scenario.ann Scenario.keys_report
                        "2024-02-02T09:00:00Z"))
                  Scenario.cache eq_refl eq_refl)).
Defined.

Lemma addItem_without_request_witness :
  DataContext.items
    (final (DataContext.addItem Scenario.online (fun _ => None)
              (Some Scenario.ann) Scenario.keys_report Scenario.cache))
  = DataContext.items Scenario.cache.
Proof.
  refine (proj1 (proj2
    (addItem_without_request Scenario.online (fun _ => None) (Some Scenario.ann)
       Scenario.keys_report Scenario.cache _))).
  right. reflexivity.
Defined.

Lemma loadItems_without_data_witness :
  DataContext.items (final (DataContext.loadItems silent Scenario.cache))
  = DataContext.items Scenario.cache.
Proof.
  exact (proj1 (loadItems_without_data silent Scenario.cache eq_refl)).
Defined.

Lemma cleanup_only_for_admin_witness :
  DataProvider.cleanup ScenarioX.online "2024-01-03T09:00:00.000Z"
    (Some Scenario.ann) Scenario.cache
  = (Done tt, Scenario.cache, []).
Proof.
  refine (proj1 (cleanup_only_for_admin ScenarioX.online
                   "2024-01-03T09:00:00.000Z" (Some Scenario.ann)
                   Scenario.cache _)).
  right. exists Scenario.ann. split; [reflexivity|].
  right. simpl. discriminate.
Defined.

Lemma cleanup_by_admin_witness :
  wcompletion (DataProvider.cleanup ScenarioX.online "2024-01-03T09:00:00.000Z"
                 (Some Scenario.root) Scenario.cache) = Done tt.
Proof.
  refine (proj1 (cleanup_by_admin ScenarioX.online "2024-01-03T09:00:00.000Z"
                   Scenario.root Scenario.cache _ eq_refl)).
  apply String.eqb_neq. reflexivity.
Defined.

Lemma onSubmit_success_toast_after_failed_add_witness :
  In (Core (Toast ToastSuccess "Item reported successfully!"))
     (wtrace (NewItemForm.onSubmit ScenarioX.items_down Scenario.toISOString
                "1706864400000" "2024-02-02T09:00:00.000Z" (Some Scenario.ann)
                ScenarioX.keys_form ScenarioX.form)).
Proof.
  refine (proj1 (onSubmit_success_toast_after_failed_add ScenarioX.items_down
                   Scenario.toISOString "1706864400000"
                   "2024-02-02T09:00:00.000Z" (Some Scenario.ann)
                   ScenarioX.keys_form ScenarioX.form _)).
  left. vm_compute. auto 10.
Defined.

Lemma handleSubmit_payload_witness :
  10 <= String.length (NewItemForm.contactInfo ScenarioX.keys_form).
Proof.
  assert (H : In (Core (Call (ItemsInsert
                   (ItemData.mk "u-1" "Ann" "9876543210" "Keys"
                      (Some "https://cdn.example/items/1706864400000_keys.png")
                      "canteen" "2024-02-02" Emergency Found)) false))
                 (wtrace (NewItemForm.handleSubmit ScenarioX.online
                            Scenario.toISOString "1706864400000"
                            "2024-02-02T09:00:00.000Z" (Some Scenario.ann)
                            ScenarioX.form)))
    by (vm_compute; auto 10).
  destruct (handleSubmit_payload ScenarioX.online Scenario.toISOString
              "1706864400000" "2024-02-02T09:00:00.000Z" (Some Scenario.ann)
              ScenarioX.form _ _ H) as (_ & _ & _ & _ & _ & Hlen & _).
  exact Hlen.
Defined.
